(** * OPCVM simulator client: a shallow embedding of the Next.js front end

    The repository's TypeScript sources (the [Home] page, the three
    simulation components and the [mc-simulate] API route) are embedded as
    Rocq functions over a small model of JavaScript values.

    Conventions.
    - A finite JS [number] is modelled by a rational ([Q]).  An input is
      kept as the decimal that was typed or that the source spells, which
      stands for the binary64 number nearest to it ([nearest]); arithmetic
      rounds every result to binary64 and overflows to an infinity
      ([binary64], [number_add], [number_mul]), and [toFixed] works on the
      binary64 number.  The negative zero is not represented.
    - A JS object is an association list with unique keys, in the order
      JavaScript enumerates them: the array indices first, ascending, then
      the other keys in insertion order.
    - Code that can throw lives in the error monad [exc].
    - JSX is a tree of [node]s; CSS class names are dropped, component and
      tag names are kept.  Event handlers are functions stored in the tree. *)

From Stdlib Require Import List String Ascii ZArith QArith Qround Qabs Bool Lia Lqa.
From Stdlib Require Import Qreduction DecimalString Sorting.Sorted Sorting.Permutation.
From Stdlib Require Qcanon Floats.
Import ListNotations.

Open Scope string_scope.
Open Scope list_scope.

(* ================================================================== *)
(** ** JavaScript values and the operators the sources use            *)
(* ================================================================== *)

Module JS.

(** The numbers that are not finite. *)
Inductive nonfinite : Type := NaN | PlusInfinity | MinusInfinity.

#[warnings="-register-all"]
Inductive value : Type :=
| VUndefined
| VNull
| VBool (b : bool)
| VNumber (q : Q)
| VNonFinite (x : nonfinite)
| VString (s : string)
| VArray (items : list value)
| VObject (fields : list (string * value)).

(** Errors a handler or a render can raise. *)
Inductive error : Type :=
| TypeError        (* property of null/undefined, call of a non-function *)
| SyntaxError      (* body is not JSON *)
| NetworkError     (* fetch rejected *)
| ReactChildError  (* "Objects are not valid as a React child" *).

Inductive exc (A : Type) : Type :=
| Ok (a : A)
| Throw (e : error).
Arguments Ok {A} a.
Arguments Throw {A} e.

Definition bind {A B} (m : exc A) (k : A -> exc B) : exc B :=
  match m with
  | Ok a => k a
  | Throw e => Throw e
  end.

(** [ToBoolean]. *)
Definition truthy (v : value) : bool :=
  match v with
  | VUndefined | VNull => false
  | VBool b => b
  | VNumber q => negb (Qeq_bool q 0)
  | VNonFinite NaN => false
  | VNonFinite _ => true
  | VString s => negb (String.eqb s "")
  | VArray _ | VObject _ => true
  end.

(** [a || b], [a && b], [a ?? b]. *)
Definition or (a b : value) : value := if truthy a then a else b.
Definition and (a b : value) : value := if truthy a then b else a.

Definition nullish (v : value) : bool :=
  match v with
  | VUndefined | VNull => true
  | _ => false
  end.

Definition coalesce (a b : value) : value := if nullish a then b else a.

(** [typeof v === "number"]. *)
Definition is_number (v : value) : bool :=
  match v with
  | VNumber _ | VNonFinite _ => true
  | _ => false
  end.

(** Own-property lookup in an object's field list. *)
Fixpoint lookup (k : string) (fs : list (string * value)) : option value :=
  match fs with
  | [] => None
  | (k', v) :: rest => if String.eqb k k' then Some v else lookup k rest
  end.

(** The array index a key spells, if any: a decimal without leading
    zeros, up to [2^32 - 2]. *)
Definition array_index (k : string) : option N :=
  match NilZero.uint_of_string k with
  | Some u =>
      let n := N.of_uint u in
      if (String.eqb (NilZero.string_of_uint (N.to_uint n)) k
          && (n <=? 4294967294)%N)%bool
      then Some n
      else None
  | None => None
  end.

Fixpoint replace (k : string) (v : value) (fs : list (string * value))
  : list (string * value) :=
  match fs with
  | [] => []
  | (k', v') :: rest =>
      if String.eqb k k' then (k, v) :: rest else (k', v') :: replace k v rest
  end.

Fixpoint insert_index (i : N) (k : string) (v : value)
         (fs : list (string * value)) : list (string * value) :=
  match fs with
  | [] => [(k, v)]
  | (k', v') :: rest =>
      match array_index k' with
      | Some j =>
          if (i <? j)%N then (k, v) :: fs
          else (k', v') :: insert_index i k v rest
      | None => (k, v) :: fs
      end
  end.

(** Defining a property: an existing key keeps its place and takes the
    new value; a new key that is an array index goes among the indices,
    in ascending order, and any other new key goes last. *)
Definition define (k : string) (v : value) (fs : list (string * value))
  : list (string * value) :=
  match lookup k fs with
  | Some _ => replace k v fs
  | None =>
      match array_index k with
      | Some i => insert_index i k v fs
      | None => fs ++ [(k, v)]
      end
  end.

Definition define_all (props fs : list (string * value))
  : list (string * value) :=
  fold_left (fun acc kv => define (fst kv) (snd kv) acc) props fs.

(** Decimal spelling of an array index or a character position. *)
Definition index_key (i : nat) : string :=
  NilZero.string_of_uint (Nat.to_uint i).

Fixpoint indexed {A} (f : A -> value) (i : nat) (l : list A)
  : list (string * value) :=
  match l with
  | [] => []
  | x :: rest => (index_key i, f x) :: indexed f (S i) rest
  end.

Fixpoint chars (s : string) : list ascii :=
  match s with
  | EmptyString => []
  | String c rest => c :: chars rest
  end.

(** Own enumerable properties copied by an object spread [...v]:
    nothing for [undefined], [null], booleans and numbers. *)
Definition spread (v : value) : list (string * value) :=
  match v with
  | VObject fs => fs
  | VArray items => indexed (fun x => x) 0 items
  | VString s => indexed (fun c => VString (String c EmptyString)) 0 (chars s)
  | VUndefined | VNull | VBool _ | VNumber _ | VNonFinite _ => []
  end.

(** An object literal: properties and spreads, left to right. *)
Inductive member : Type :=
| Prop_ (k : string) (v : value)
| Spread (v : value).

Definition object_literal (ms : list member) : value :=
  VObject
    (fold_left
       (fun acc m =>
          match m with
          | Prop_ k v => define k v acc
          | Spread v => define_all (spread v) acc
          end)
       ms []).

(** What reading the property [k] of an object gives. *)
Definition field (fs : list (string * value)) (k : string) : value :=
  match lookup k fs with
  | Some x => x
  | None => VUndefined
  end.

(** [v.k] for one of the identifiers the components read (none of them
    is a built-in property of strings, arrays, numbers or booleans). *)
Definition get (v : value) (k : string) : exc value :=
  match v with
  | VUndefined | VNull => Throw TypeError
  | VObject fs => Ok (field fs k)
  | VBool _ | VNumber _ | VNonFinite _ | VString _ | VArray _ => Ok VUndefined
  end.

(** [v?.k]. *)
Definition get_opt (v : value) (k : string) : exc value :=
  if nullish v then Ok VUndefined else get v k.

(** *** Numbers

    A number is a binary64 floating-point number: a rational with a
    53-bit significand and an exponent between -1074 and 971, an
    infinity or NaN. *)
Inductive number : Type :=
| Finite (q : Q)
| NonFinite (x : nonfinite).

Definition number_value (n : number) : value :=
  match n with
  | Finite q => VNumber q
  | NonFinite x => VNonFinite x
  end.

Definition pow2 (k : Z) : Q :=
  if (0 <=? k)%Z then inject_Z (2 ^ k) else 1 # Z.to_pos (2 ^ (- k)).

(** The binary exponent [e] of a positive rational:
    [2^e <= q < 2^(e+1)]. *)
Definition ilog2 (q : Q) : Z :=
  let e := (Z.log2 (Qnum q) - Z.log2 (Zpos (Qden q)))%Z in
  if Qle_bool (pow2 e) q then e else (e - 1)%Z.

(** The nearest integer, ties to the even one. *)
Definition round_half_even (x : Q) : Z :=
  let f := Qfloor x in
  match Qcompare (x - inject_Z f) (1 # 2) with
  | Lt => f
  | Gt => (f + 1)%Z
  | Eq => if Z.even f then f else (f + 1)%Z
  end.

(** Rounding to nearest, ties to even: the multiple of the unit in the
    last place nearest to [q].  The unit is [2^(e-52)] for a number of
    exponent [e], and [2^(-1074)] below [2^(-1022)] (the subnormal
    numbers). *)
Definition nearest_positive (q : Q) : Q :=
  let e := Z.max (ilog2 q) (-1022) in
  let ulp := pow2 (e - 52) in
  Qred (inject_Z (round_half_even (q / ulp)) * ulp).

Definition nearest (q : Q) : Q :=
  match Qcompare q 0 with
  | Eq => 0
  | Gt => nearest_positive q
  | Lt => Qred (- nearest_positive (- q))
  end.

(** The number a real value is rounded to: from [2^1024] on, an
    infinity. *)
Definition binary64 (q : Q) : number :=
  let r := nearest q in
  if Qle_bool (pow2 1024) r then NonFinite PlusInfinity
  else if Qle_bool r (- pow2 1024) then NonFinite MinusInfinity
  else Finite r.

Definition negate (x : nonfinite) : nonfinite :=
  match x with
  | NaN => NaN
  | PlusInfinity => MinusInfinity
  | MinusInfinity => PlusInfinity
  end.

(** [a + b]. *)
Definition number_add (a b : number) : number :=
  match a, b with
  | Finite x, Finite y => binary64 (x + y)
  | NonFinite NaN, _ | _, NonFinite NaN => NonFinite NaN
  | NonFinite PlusInfinity, NonFinite MinusInfinity
  | NonFinite MinusInfinity, NonFinite PlusInfinity => NonFinite NaN
  | NonFinite x, _ | _, NonFinite x => NonFinite x
  end.

(** [a * b]: an infinity times zero is NaN. *)
Definition number_mul (a b : number) : number :=
  let scaled (q : Q) (x : nonfinite) :=
    match Qcompare q 0 with
    | Eq => NaN
    | Gt => x
    | Lt => negate x
    end in
  match a, b with
  | Finite x, Finite y => binary64 (x * y)
  | Finite x, NonFinite y | NonFinite y, Finite x => NonFinite (scaled x y)
  | NonFinite NaN, _ | _, NonFinite NaN => NonFinite NaN
  | NonFinite x, NonFinite PlusInfinity => NonFinite x
  | NonFinite x, NonFinite MinusInfinity => NonFinite (negate x)
  end.

(** *** Numeric strings

    [Number.prototype.toFixed] returns the decimal numeral with exactly
    [digits] fraction digits that is closest to the binary64 number, ties
    away from zero, for a number below [10^21] in magnitude (from there
    on, see [call_toFixed]).  The numeral is kept structured: its value
    is [mantissa / 10^digits], negated when [negative]. *)
Record numeral : Type := { negative : bool; mantissa : Z; digits : nat }.

Definition pow10 (d : nat) : Z := Z.pow 10 (Z.of_nat d).

Definition toFixed (x : Q) (d : nat) : numeral :=
  let x := nearest x in
  {| negative := if Qlt_le_dec x 0 then true else false;
     mantissa := Qfloor (Qabs x * inject_Z (pow10 d) + (1 # 2));
     digits := d |}.

Definition nonfinite_string (x : nonfinite) : string :=
  match x with
  | NaN => "NaN"
  | PlusInfinity => "Infinity"
  | MinusInfinity => "-Infinity"
  end.

(** Unary plus on a numeral string. *)
Definition numeral_value (s : numeral) : Q :=
  let m := if negative s then Z.opp (mantissa s) else mantissa s in
  Qmake m (Z.to_pos (pow10 (digits s))).

Fixpoint fraction_digits (d : nat) (m : Z) : string :=
  match d with
  | O => ""
  | S d' =>
      fraction_digits d' (m / 10)
      ++ NilZero.string_of_uint (N.to_uint (Z.to_N (m mod 10)))
  end.

(** The characters of the numeral. *)
Definition numeral_string (s : numeral) : string :=
  let a := mantissa s in
  let whole := NilZero.string_of_uint (N.to_uint (Z.to_N (a / pow10 (digits s)))) in
  let sign := if negative s then "-" else "" in
  match digits s with
  | O => sign ++ whole
  | S _ => sign ++ whole ++ "." ++ fraction_digits (digits s) (a mod pow10 (digits s))
  end.

(** [Number::toString]: the shortest decimal that denotes the number, in
    positional notation from [10^(-6)] up to [10^21] and in exponent
    notation outside. *)
Definition ten_to (k : Z) : Q :=
  if (0 <=? k)%Z then inject_Z (10 ^ k) else 1 # Z.to_pos (10 ^ (- k)).

(** The decimal exponent [e] of a positive rational:
    [10^e <= q < 10^(e+1)]. *)
Definition ilog10 (q : Q) : Z :=
  let e := (ilog2 q * 30103 / 100000)%Z in
  let e := if Qle_bool (ten_to (e + 1)) q then (e + 1)%Z else e in
  if Qle_bool (ten_to e) q then e else (e - 1)%Z.

Definition represents (x : Q) (s n k : Z) : bool :=
  Qeq_bool (nearest (inject_Z s * ten_to (n - k))) x.

(** The shortest decimal [s * 10^(n-k)], [s] of [k] digits, that denotes
    the number [x > 0]; of two of the same length the closer one, then
    the even one. *)
Fixpoint shortest (fuel : nat) (x : Q) (n k : Z) : Z * Z * Z :=
  let scaled := (x / ten_to (n - k))%Q in
  let lo := Qfloor scaled in
  let hi := (lo + 1)%Z in
  let below := (scaled - inject_Z lo)%Q in
  let above := (inject_Z hi - scaled)%Q in
  let normal s := if (s =? 10 ^ k)%Z then (10 ^ (k - 1), n + 1, k)%Z else (s, n, k) in
  match fuel with
  | O => normal lo
  | S fuel' =>
      match represents x lo n k, represents x hi n k with
      | true, true =>
          match Qcompare below above with
          | Lt => normal lo
          | Gt => normal hi
          | Eq => normal (if Z.even lo then lo else hi)
          end
      | true, false => normal lo
      | false, true => normal hi
      | false, false => shortest fuel' x n (k + 1)%Z
      end
  end.

Definition decimal (n : Z) : string :=
  NilZero.string_of_uint (N.to_uint (Z.to_N n)).

Fixpoint zeros (n : nat) : string :=
  match n with
  | O => ""
  | S n' => String "0" (zeros n')
  end.

Definition positive_string (x : Q) : string :=
  let '(s, n, k) := shortest 17 x (ilog10 x + 1) 1 in
  let figures := decimal s in
  (if ((k <=? n) && (n <=? 21))%Z then
     figures ++ zeros (Z.to_nat (n - k))
   else if ((0 <? n) && (n <=? 21))%Z then
     substring 0 (Z.to_nat n) figures ++ "."
     ++ substring (Z.to_nat n) (Z.to_nat (k - n)) figures
   else if ((-6 <? n) && (n <=? 0))%Z then
     "0." ++ zeros (Z.to_nat (- n)) ++ figures
   else
     let e := (n - 1)%Z in
     let exponent := (if (e <? 0)%Z then "-" else "+") ++ decimal (Z.abs e) in
     if (k =? 1)%Z then figures ++ "e" ++ exponent
     else substring 0 1 figures ++ "."
          ++ substring 1 (Z.to_nat (k - 1)) figures ++ "e" ++ exponent)%string.

Definition number_string (q : Q) : string :=
  let x := nearest q in
  match Qcompare x 0 with
  | Eq => "0"
  | Gt => positive_string x
  | Lt => ("-" ++ positive_string (- x))%string
  end.

(** The value of an [<input type="number">]: the browser keeps it either
    empty or a valid number. *)
Inductive input_text : Type :=
| Empty
| Numeric (q : Q).

(** Unary plus on the input's text: [+""] is [0]. *)
Definition to_number (t : input_text) : Q :=
  match t with
  | Empty => 0%Q
  | Numeric q => q
  end.

(** *** Conversion to a primitive

    [ToPrimitive], which [Intl.NumberFormat.prototype.format] applies to
    its argument before anything else, throws a TypeError when neither
    [valueOf] nor [toString] yields a primitive.  Of the values JSON
    denotes, it fails on an object with a property named [toString] (the
    property hides [Object.prototype.toString] and is not callable, and
    [valueOf] answers the object itself), and on an array holding such an
    object, which [Array.prototype.join] has to convert. *)
Fixpoint convertible (v : value) : bool :=
  match v with
  | VObject fs =>
      match lookup "toString" fs with
      | Some _ => false
      | None => true
      end
  | VArray items => forallb convertible items
  | _ => true
  end.

End JS.

Import JS.

Declare Scope exc_scope.
Notation "x <- m ;; k" := (bind m (fun x => k))
  (at level 61, m at next level, right associativity) : exc_scope.
Open Scope exc_scope.

(* ================================================================== *)
(** ** types/simulation.ts                                            *)
(* ================================================================== *)

Inductive SimulationType : Type :=
| deterministic   (* "deterministic" *)
| monte_carlo     (* "monte-carlo" *).

Definition SimulationType_eqb (a b : SimulationType) : bool :=
  match a, b with
  | deterministic, deterministic | monte_carlo, monte_carlo => true
  | _, _ => false
  end.

(** A TypeScript type, as far as the interface needs: a field is a name,
    whether it is optional ([?:]) and its type. *)
#[warnings="-register-all"]
Inductive tstype : Type :=
| TNumber
| TString
| TArray (elem : tstype)
| TObject (fields : list (string * bool * tstype)).

Definition required (k : string) (t : tstype) : string * bool * tstype :=
  (k, false, t).
Definition optional (k : string) (t : tstype) : string * bool * tstype :=
  (k, true, t).

(** [interface SimulationResult]. *)
Definition SimulationResult : tstype :=
  TObject
    [ required "fund_name" TString;
      required "category" TString;
      required "assumed_annual_return" TNumber;
      required "years" TNumber;
      required "gross_final_value" TNumber;
      required "net_final_value" TNumber;
      required "net_profit_after_tax" TNumber;
      required "tax_paid" TNumber;
      required "total_contributed" TNumber;
      optional "trajectory"
        (TArray (TObject [required "month" TNumber; required "value" TNumber]));
      (* Monte Carlo specific fields *)
      optional "assumed_annual_vol" TNumber;
      optional "n_paths" TNumber;
      optional "percentiles"
        (TObject [required "p5" TNumber; required "p50" TNumber;
                  required "p95" TNumber]);
      optional "prob_loss" TNumber;
      optional "risk_metrics"
        (TObject [required "annualized_vol" TNumber; required "sharpe" TNumber;
                  required "sortino" TNumber;
                  required "max_drawdown_mean" TNumber;
                  required "calmar" TNumber]) ].

(** A value inhabits a type: required fields are present, an optional
    field is absent, [undefined] or of its type; further fields are
    allowed (structural typing). *)
Fixpoint conforms (t : tstype) (v : value) {struct t} : bool :=
  match t, v with
  | TNumber, VNumber _ | TNumber, VNonFinite _ => true
  | TString, VString _ => true
  | TArray elem, VArray items => forallb (conforms elem) items
  | TObject decls, VObject fs =>
      forallb
        (fun d =>
           match d with
           | (k, opt, t') =>
               match lookup k fs with
               | None | Some VUndefined => opt
               | Some x => conforms t' x
               end
           end)
        decls
  | _, _ => false
  end.

(** [Partial<T>], through every level: each field may be absent. *)
Fixpoint partial (t : tstype) : tstype :=
  match t with
  | TObject decls =>
      TObject
        (map (fun d => match d with (k, _, t') => (k, true, partial t') end)
             decls)
  | TArray elem => TArray (partial elem)
  | TNumber => TNumber
  | TString => TString
  end.

Definition field_names (t : tstype) (opt : bool) : list string :=
  match t with
  | TObject decls =>
      map (fun d => fst (fst d))
          (filter (fun d => Bool.eqb (snd (fst d)) opt) decls)
  | _ => []
  end.

Definition field_type (t : tstype) (k : string) : option tstype :=
  match t with
  | TObject decls =>
      match find (fun d => String.eqb (fst (fst d)) k) decls with
      | Some d => Some (snd d)
      | None => None
      end
  | _ => None
  end.

(* ================================================================== *)
(** ** JSX trees                                                      *)
(* ================================================================== *)

(** [Intl.NumberFormat]: only [format] is used.  [format] gives the text
    for an argument it could convert to a number; [call_format] below is
    the call, which fails when the conversion does. *)
Record NumberFormat : Type := { format : value -> string }.

Section Nodes.

Context {M : Type}.   (* what an event handler produces *)

#[warnings="-register-all"]
Inductive node : Type :=
| Null                                   (* a component returned null *)
| Text (s : string)                      (* literal JSX text *)
| Expr (v : value)                       (* {e}, with the value of e *)
| Elem (tag : string) (kids : list node)
| Option_ (value : string) (label : string)
| Select (value : string) (onChange : string -> M) (kids : list node)
| Input (value : Q) (onChange : input_text -> M)
| Slider (value min max step : Q) (onValueChange : Q -> M)
| Button (disabled : bool) (onClick : M) (kids : list node)
| LineChart (data : value) (xKey yKey : string)
    (* recharts; what the library does with the data is not modelled *).

(** What a tree displays, in document order: the literal text of the JSX
    and the values of its [{...}] expressions. *)
Inductive item : Type :=
| Literal (s : string)
| Dynamic (v : value).

Fixpoint content (n : node) : list item :=
  match n with
  | Text s => [Literal s]
  | Expr v => [Dynamic v]
  | Elem _ kids | Select _ _ kids | Button _ _ kids => flat_map content kids
  | Option_ _ label => [Dynamic (VString label)]
  | Null | Input _ _ | Slider _ _ _ _ _ | LineChart _ _ _ => []
  end.

(** The tree displays the items of [run] one after the other. *)
Definition shows (n : node) (run : list item) : Prop :=
  exists i, firstn (List.length run) (skipn i (content n)) = run.

(** The chart data of a tree, if it draws a chart. *)
Fixpoint charts (n : node) : list value :=
  match n with
  | LineChart data _ _ => [data]
  | Elem _ kids | Select _ _ kids | Button _ _ kids => flat_map charts kids
  | _ => []
  end.

Fixpoint option_values (kids : list node) : list string :=
  match kids with
  | [] => []
  | Option_ v _ :: rest => v :: option_values rest
  | _ :: rest => option_values rest
  end.

(** What the user can do with a rendered tree. *)
Inductive control : Type :=
| OnSelect (options : list string) (onChange : string -> M)
| OnInput (onChange : input_text -> M)
| OnSlide (min max step : Q) (onValueChange : Q -> M)
| OnClick (onClick : M).

Fixpoint controls (n : node) : list control :=
  match n with
  | Select _ h kids => [OnSelect (option_values kids) h]
  | Input _ h => [OnInput h]
  | Slider _ mn mx st h => [OnSlide mn mx st h]
  | Button disabled h _ => if disabled then [] else [OnClick h]
  | Elem _ kids => flat_map controls kids
  | Null | Text _ | Expr _ | Option_ _ _ | LineChart _ _ _ => []
  end.

(** Modelled from the spec: the [Slider] of [components/ui/slider] (a
    wrapper of the Radix UI slider, not among the sources) reports only
    values on its grid [min + k * step] that lie between [min] and [max]. *)
Definition slider_emits (mn mx st v : Q) : Prop :=
  (mn <= v /\ v <= mx)%Q
  /\ exists k : Z, (0 <= k)%Z /\ (v == mn + inject_Z k * st)%Q.

(** The handler call a user event on a control results in. *)
Inductive fires : control -> M -> Prop :=
| fires_select options h v :
    In v options -> fires (OnSelect options h) (h v)
| fires_input h text :
    fires (OnInput h) (h text)
| fires_slide mn mx st h v :
    slider_emits mn mx st v -> fires (OnSlide mn mx st h) (h v)
| fires_click h :
    fires (OnClick h) h.

(** A primitive in child position; React refuses objects. *)
Fixpoint valid_child (v : value) : bool :=
  match v with
  | VObject _ => false
  | VArray items => forallb valid_child items
  | _ => true
  end.

Definition react_child (v : value) : exc node :=
  if valid_child v then Ok (Expr v) else Throw ReactChildError.

End Nodes.

Arguments node M : clear implicits.
Arguments control M : clear implicits.

(* ================================================================== *)
(** ** components/simulation/SimulationResults.tsx                    *)
(* ================================================================== *)

Definition zero : value := VNumber 0.

(** [x.toFixed(d)]: a method of numbers only; from [10^21] on it answers
    as [toString] does. *)
Definition call_toFixed (x : value) (d : nat) : exc string :=
  match x with
  | VNumber q =>
      Ok (if Qle_bool (ten_to 21) (Qabs (nearest q)) then number_string q
          else numeral_string (toFixed q d))
  | VNonFinite x => Ok (nonfinite_string x)
  | _ => Throw TypeError
  end.

(** [f.format(x)]. *)
Definition call_format (f : NumberFormat) (x : value) : exc string :=
  if convertible x then Ok (format f x) else Throw TypeError.

Section Components.

Context {M : Type}.

Definition description (simulationType : SimulationType) : string :=
  if SimulationType_eqb simulationType deterministic
  then "Key performance indicators after fees and tax."
  else "Probabilistic outcomes with risk metrics.".

(** One bordered card: a caption over a figure. *)
Definition card (caption figure : string) : node M :=
  Elem "div" [Elem "div" [Text caption]; Elem "div" [Expr (VString figure)]].

(** [result.outer?.inner], as [MonteCarloResults] reads the members of
    [percentiles] and [risk_metrics]. *)
Definition read_member (result : value) (outer inner : string) : exc value :=
  x <- get result outer ;;
  get_opt x inner.

(** [f.format(e || 0)], where [read] evaluates [e]. *)
Definition figure (f : NumberFormat) (read : exc value) : exc string :=
  x <- read ;;
  call_format f (or x zero).

Definition DeterministicResults (result : value) (mad percent : NumberFormat)
  : exc (node M) :=
  assumed_annual_return <- figure percent (get result "assumed_annual_return") ;;
  net_final_value <- figure mad (get result "net_final_value") ;;
  net_profit_after_tax <- figure mad (get result "net_profit_after_tax") ;;
  tax_paid <- figure mad (get result "tax_paid") ;;
  Ok (Elem "div"
        [ card "Assumed annual return" assumed_annual_return;
          card "Net final value" net_final_value;
          card "Net profit (after tax)" net_profit_after_tax;
          card "Tax paid" tax_paid ]).

Definition MonteCarloResults (result : value) (mad percent : NumberFormat)
  : exc (node M) :=
  assumed_annual_return <- figure percent (get result "assumed_annual_return") ;;
  assumed_annual_vol <- figure percent (get result "assumed_annual_vol") ;;
  p5 <- figure mad (read_member result "percentiles" "p5") ;;
  p50 <- figure mad (read_member result "percentiles" "p50") ;;
  p95 <- figure mad (read_member result "percentiles" "p95") ;;
  prob_loss <- figure percent (get result "prob_loss") ;;
  sharpe <- read_member result "risk_metrics" "sharpe" ;;
  sharpe <- call_toFixed (or sharpe zero) 2 ;;
  Ok (Elem "div"
        [ Elem "div"
            [ card "Assumed annual return" assumed_annual_return;
              card "Annual volatility" assumed_annual_vol ];
          Elem "div"
            [ Elem "div" [Text "Percentile Outcomes"];
              Elem "div"
                [ card "P5 (Worst 5%)" p5;
                  card "P50 (Median)" p50;
                  card "P95 (Best 5%)" p95 ] ];
          Elem "div"
            [ card "Probability of loss" prob_loss;
              card "Sharpe ratio" sharpe ] ]).

(** The captions only [MonteCarloResults] writes. *)
Definition monte_carlo_captions : list string :=
  [ "Annual volatility"; "Percentile Outcomes"; "P5 (Worst 5%)";
    "P50 (Median)"; "P95 (Best 5%)"; "Probability of loss"; "Sharpe ratio" ].

Definition results_header (simulationType : SimulationType) : node M :=
  Elem "CardHeader"
    [ Elem "CardTitle" [Text "Results"];
      Elem "CardDescription" [Expr (VString (description simulationType))] ].

Definition SimulationResults
  (result : value) (simulationType : SimulationType)
  (mad percent : NumberFormat) : exc (node M) :=
  if negb (truthy result) then
    Ok (Elem "Card"
          [ results_header simulationType;
            Elem "CardContent"
              [Elem "div"
                 [Text "Run a simulation to see projected outcomes."]] ])
  else
    category <- get result "category" ;;
    badge <- react_child category ;;
    figures <-
      (if SimulationType_eqb simulationType deterministic
       then DeterministicResults result mad percent
       else MonteCarloResults result mad percent) ;;
    Ok (Elem "Card"
          [ results_header simulationType;
            Elem "CardContent"
              [Elem "div"
                 [ Elem "div"
                     [ Elem "span" [Text "Category"];
                       Elem "Badge" [badge] ];
                   figures ]] ]).

(* ================================================================== *)
(** ** components/simulation/ProjectionChart.tsx                      *)
(* ================================================================== *)

Definition ProjectionChart (result : value) (simulationType : SimulationType)
  : exc (node M) :=
  (* Only show chart for deterministic simulations *)
  if negb (truthy result)
     || negb (SimulationType_eqb simulationType deterministic)
  then Ok Null
  else
    trajectory <- get_opt result "trajectory" ;;
    Ok (Elem "Card"
          [ Elem "CardHeader"
              [ Elem "CardTitle" [Text "Projection"];
                Elem "CardDescription" [Text "Growth trajectory over time."] ];
            Elem "CardContent"
              [Elem "div"
                 [Elem "ResponsiveContainer"
                    [LineChart (coalesce trajectory (VArray []))
                       "month" "value"]]] ]).

(* ================================================================== *)
(** ** components/simulation/AppHeader.tsx                            *)
(* ================================================================== *)

Definition AppHeader : node M :=
  Elem "header"
    [ Elem "div"
        [ Elem "h1" [Elem "LineChartIcon" []; Text " OPCVM Investment Simulator"];
          Elem "p"
            [Text "Model long-term outcomes of recurring investments into Moroccan funds."] ];
      Elem "Badge" [Elem "Rocket" []; Text " Beta"] ].

End Components.

(* ================================================================== *)
(** ** Results the components can render                              *)
(* ================================================================== *)

(** A figure that is a number, or absent, is displayed: as itself, or as
    0. *)
Definition plain (x : value) : Prop := x = VUndefined \/ is_number x = true.

(** What the two views need of a result object to render it. *)
Definition renderable (fs : list (string * value)) : Prop :=
  valid_child (field fs "category") = true
  /\ (forall k,
        In k [ "assumed_annual_return"; "net_final_value";
               "net_profit_after_tax"; "tax_paid"; "assumed_annual_vol";
               "prob_loss" ] ->
        plain (field fs k))
  /\ (forall k, In k ["p5"; "p50"; "p95"] ->
        exists x, get_opt (field fs "percentiles") k = Ok x /\ plain x)
  /\ (exists x, get_opt (field fs "risk_metrics") "sharpe" = Ok x /\ plain x)
  /\ (exists points,
        coalesce (field fs "trajectory") (VArray []) = VArray points
        /\ (field fs "trajectory" = VUndefined -> points = [])).

(* ================================================================== *)
(** ** components/simulation/SimulationInputs.tsx                     *)
(* ================================================================== *)

Definition FUNDS : list string :=
  [ "ATTIJARI ACTIONS";
    "ATTIJARI AL MOUCHARAKA";
    "ATTIJARI DIVIDEND FUND";
    "ATTIJARI PATRIMOINE VALEURS";
    "FCP ATTIJARI GOLD";
    "ATTIJARI DIVERSIFIE";
    "ATTIJARI PATRIMOINE DIVERSIFIE";
    "WG OBLIGATIONS";
    "ATTIJARI PATRIMOINE TAUX";
    "PATRIMOINE OBLIGATIONS";
    "ATTIJARI MONETAIRE PLUS" ].

Module SimulationInputs.

Section Render.

Context {M : Type}.

(** [Number.prototype.toLocaleString], a built-in. *)
Variable toLocaleString : Q -> string.

(** [interface SimulationInputsProps]. *)
Record Props : Type := {
  fund : string;
  setFund : string -> M;
  initial : Q;
  setInitial : Q -> M;
  monthly : Q;
  setMonthly : Q -> M;
  years : Q;
  setYears : Q -> M;
  fee : Q;
  setFee : Q -> M;
  nPaths : Q;
  setNPaths : Q -> M;
  simulationType : SimulationType;
  setSimulationType : SimulationType -> M;
  onRunSimulation : M;
  loading : bool;
  totalContributed : number;
  mad : NumberFormat;
  percent : NumberFormat
}.

Definition info (tip : string) : node M :=
  Elem "UiTooltip"
    [ Elem "TooltipTrigger" [Elem "Info" []];
      Elem "TooltipContent" [Text tip] ].

Definition render (p : Props) : node M :=
  let handleSimulationTypeChange (type : SimulationType) : M :=
    setSimulationType p type
    (* Clear results when switching types - this will be handled by parent *)
  in
  Elem "Card"
    [ Elem "CardHeader"
        [ Elem "CardTitle" [Text "Inputs"];
          Elem "CardDescription"
            [Text "Adjust parameters and run a simulation."] ];
      Elem "CardContent"
        [ Elem "div"
            [ Elem "Label" [Text "Fund"];
              Select (fund p) (fun value => setFund p value)
                (map (fun k => Option_ k k) FUNDS) ];
          Elem "div"
            [ Elem "div"
                [ Elem "div"
                    [ Elem "Label" [Text "Initial amount"];
                      Elem "span"
                        [Expr (VString (format (mad p) (VNumber (initial p))))] ];
                  Input (initial p)
                    (fun value => setInitial p (to_number value)) ];
              Elem "div"
                [ Elem "div"
                    [ Elem "Label" [Text "Monthly contribution"];
                      Elem "span"
                        [Expr (VString (format (mad p) (VNumber (monthly p))))] ];
                  Input (monthly p)
                    (fun value => setMonthly p (to_number value)) ] ];
          Elem "div"
            [ Elem "div"
                [ Elem "div"
                    [ Elem "Label" [Text "Investment horizon"];
                      info "Number of years invested." ];
                  Elem "span" [Expr (VNumber (years p)); Text " years"] ];
              Slider (years p) 1 30 1 (fun v0 => setYears p v0) ];
          Elem "div"
            [ Elem "div"
                [ Elem "div"
                    [ Elem "Label" [Text "Annual management fee"];
                      info "Annual fee applied to assets under management." ];
                  Elem "span"
                    [Expr (VString (format (percent p) (VNumber (fee p))))] ];
              Slider (fee p) 0 0.05 0.001
                (fun v0 => setFee p (numeral_value (toFixed v0 3))) ];
          if SimulationType_eqb (simulationType p) monte_carlo then
            Elem "div"
              [ Elem "div"
                  [ Elem "div"
                      [ Elem "Label" [Text "Number of simulations"];
                        info "Number of Monte Carlo simulation paths (higher = more accurate but slower)." ];
                    Elem "span" [Expr (VString (toLocaleString (nPaths p)))] ];
                Slider (nPaths p) 1000 10000 500 (fun v0 => setNPaths p v0) ]
          else Expr (VBool false) ];
      Elem "CardFooter"
        [ Elem "div"
            [ Text "Total contributed:"; Expr (VString " ");
              Elem "span"
                [Expr (VString
                         (format (mad p) (number_value (totalContributed p))))] ];
          Elem "div"
            [ Button false (handleSimulationTypeChange deterministic)
                [Elem "Play" []; Text "Deterministic"];
              Button false (handleSimulationTypeChange monte_carlo)
                [Elem "BarChart3" []; Text "MC Simulation"] ];
          Button (loading p) (onRunSimulation p)
            [ Elem "Play" []; Expr (VString " ");
              Expr (VString
                      (if loading p then "Simulating..."
                       else "Run "
                            ++ (if SimulationType_eqb (simulationType p) deterministic
                                then "Deterministic" else "Monte Carlo")
                            ++ " Simulation")) ] ] ].

End Render.

Arguments Props M : clear implicits.

End SimulationInputs.

(* ================================================================== *)
(** ** app/page.tsx: the [Home] component                             *)
(* ================================================================== *)

(** A call of [fetch(url, init)]. *)
Record RequestInit : Type := {
  method : string;
  headers : list (string * string);
  body : string
}.

Record FetchCall : Type := { url : string; init : RequestInit }.

(** [headers: { "Content-Type": "application/json" }]. *)
Definition json_headers : list (string * string) :=
  [("Content-Type", "application/json")].

Module Home.

(** The [useState] cells. *)
Record State : Type := {
  fund : string;
  initial : Q;
  monthly : Q;
  years : Q;
  fee : Q;
  nPaths : Q;
  result : value;               (* SimulationResult | null *)
  simulationType : SimulationType;
  loading : bool
}.

Definition initial_state : State :=
  {| fund := "ATTIJARI ACTIONS";
     initial := 100000;
     monthly := 3000;
     years := 5;
     fee := 0.018;
     nPaths := 5000;
     result := VNull;
     simulationType := deterministic;
     loading := false |}.

(** The state setters. *)
Definition setFund (x : string) (s : State) : State :=
  Build_State x (initial s) (monthly s) (years s) (fee s) (nPaths s)
    (result s) (simulationType s) (loading s).
Definition setInitial (x : Q) (s : State) : State :=
  Build_State (fund s) x (monthly s) (years s) (fee s) (nPaths s)
    (result s) (simulationType s) (loading s).
Definition setMonthly (x : Q) (s : State) : State :=
  Build_State (fund s) (initial s) x (years s) (fee s) (nPaths s)
    (result s) (simulationType s) (loading s).
Definition setYears (x : Q) (s : State) : State :=
  Build_State (fund s) (initial s) (monthly s) x (fee s) (nPaths s)
    (result s) (simulationType s) (loading s).
Definition setFee (x : Q) (s : State) : State :=
  Build_State (fund s) (initial s) (monthly s) (years s) x (nPaths s)
    (result s) (simulationType s) (loading s).
Definition setNPaths (x : Q) (s : State) : State :=
  Build_State (fund s) (initial s) (monthly s) (years s) (fee s) x
    (result s) (simulationType s) (loading s).
Definition setResult (x : value) (s : State) : State :=
  Build_State (fund s) (initial s) (monthly s) (years s) (fee s) (nPaths s)
    x (simulationType s) (loading s).
Definition setSimulationType (x : SimulationType) (s : State) : State :=
  Build_State (fund s) (initial s) (monthly s) (years s) (fee s) (nPaths s)
    (result s) x (loading s).
Definition setLoading (x : bool) (s : State) : State :=
  Build_State (fund s) (initial s) (monthly s) (years s) (fee s) (nPaths s)
    (result s) (simulationType s) x.

(** The ranges the input controls are built for. *)
Definition valid_inputs (s : State) : Prop :=
  In (fund s) FUNDS
  /\ (exists k : Z, (1 <= k <= 30)%Z /\ (years s == inject_Z k)%Q)
  /\ (0 <= fee s /\ fee s <= 0.05)%Q
  /\ (1000 <= nPaths s /\ nPaths s <= 10000)%Q.

(** An asynchronous function suspended at its [await]: the request in
    flight and what the rest of the function does to the state once the
    response's JSON arrives, or the request or its decoding fails. *)
Record Pending : Type := {
  call : FetchCall;
  resume : exc value -> State -> State
}.

(** An event handler: the state updates it makes before it returns, and
    the requests it leaves in flight. *)
Definition handler : Type := State -> State * list Pending.

Definition update (f : State -> State) : handler := fun s => (f s, []).

Section Render.

(** Built-ins of the platform. *)
Variable JSON_stringify : value -> string.
Variable toLocaleString : Q -> string.
Variable Intl_NumberFormat : string -> list (string * value) -> NumberFormat.

Definition mad : NumberFormat :=
  Intl_NumberFormat "en-MA"
    [ ("style", VString "currency"); ("currency", VString "MAD");
      ("maximumFractionDigits", VNumber 0) ].

Definition percent : NumberFormat :=
  Intl_NumberFormat "en-US"
    [ ("style", VString "percent"); ("maximumFractionDigits", VNumber 2) ].

(** The values below are those of the render the handlers were created
    in, [r]. *)
Section Closure.

Variable r : State.

(** [initial + monthly * years * 12], on the numbers the state holds. *)
Definition totalContributed : number :=
  number_add (binary64 (initial r))
    (number_mul (number_mul (binary64 (monthly r)) (binary64 (years r)))
       (Finite 12)).

Definition endpoint : string :=
  if SimulationType_eqb (simulationType r) deterministic
  then "/api/simulate"
  else "/api/mc-simulate".

Definition requestBody : value :=
  object_literal
    [ Prop_ "fund_name" (VString (fund r));
      Prop_ "initial_amount" (VNumber (initial r));
      Prop_ "monthly_contribution" (VNumber (monthly r));
      Prop_ "years" (VNumber (years r));
      Prop_ "annual_fee" (VNumber (fee r));
      Spread (and (VBool (SimulationType_eqb (simulationType r) monte_carlo))
                  (object_literal [Prop_ "n_paths" (VNumber (nPaths r))])) ].

(** [runSimulation]: up to the [await] it sets [loading] and sends the
    request; afterwards it stores the response's JSON, and in every case
    ([finally]) clears [loading]. *)
Definition simulate_call : FetchCall :=
  {| url := endpoint;
     init := {| method := "POST";
                headers := json_headers;
                body := JSON_stringify requestBody |} |}.

Definition runSimulation : handler := fun s =>
  ( setLoading true s,
    [ {| call := simulate_call;
         resume := fun outcome s' =>
           match outcome with
           | Ok data => setLoading false (setResult data s')
           | Throw _ => setLoading false s'
           end |} ] ).

Definition handleSimulationTypeChange (type : SimulationType) : handler :=
  update (fun s =>
            let s := setSimulationType type s in
            setResult VNull s (* Clear previous results when switching *)).

Definition props : SimulationInputs.Props handler :=
  {| SimulationInputs.fund := fund r;
     SimulationInputs.setFund := fun x => update (setFund x);
     SimulationInputs.initial := initial r;
     SimulationInputs.setInitial := fun x => update (setInitial x);
     SimulationInputs.monthly := monthly r;
     SimulationInputs.setMonthly := fun x => update (setMonthly x);
     SimulationInputs.years := years r;
     SimulationInputs.setYears := fun x => update (setYears x);
     SimulationInputs.fee := fee r;
     SimulationInputs.setFee := fun x => update (setFee x);
     SimulationInputs.nPaths := nPaths r;
     SimulationInputs.setNPaths := fun x => update (setNPaths x);
     SimulationInputs.simulationType := simulationType r;
     SimulationInputs.setSimulationType := handleSimulationTypeChange;
     SimulationInputs.onRunSimulation := runSimulation;
     SimulationInputs.loading := loading r;
     SimulationInputs.totalContributed := totalContributed;
     SimulationInputs.mad := mad;
     SimulationInputs.percent := percent |}.

Definition render : exc (node handler) :=
  results <- SimulationResults (result r) (simulationType r) mad percent ;;
  chart <- ProjectionChart (result r) (simulationType r) ;;
  Ok (Elem "TooltipProvider"
        [Elem "div"
           [ AppHeader;
             Elem "div"
               [ SimulationInputs.render toLocaleString props; results ];
             chart ]]).

End Closure.

(** *** The page as a transition system

    The page's state, and the asynchronous calls not yet settled. *)
Record App : Type := { home : State; pending : list Pending }.

Definition start : App := {| home := initial_state; pending := [] |}.

(** One turn of the event loop, labelled with the requests it sends:
    either the user operates a control of the current render, or a
    request in flight settles and its function runs on. *)
Inductive step : App -> list FetchCall -> App -> Prop :=
| step_event a tree c h s' ps :
    render (home a) = Ok tree ->
    In c (controls tree) ->
    fires c h ->
    h (home a) = (s', ps) ->
    step a (map call ps) {| home := s'; pending := pending a ++ ps |}
| step_settle a before p after outcome :
    pending a = before ++ p :: after ->
    step a [] {| home := resume p outcome (home a);
                 pending := before ++ after |}.

(** The states the page can reach, with every request sent on the way. *)
Inductive reach : App -> list FetchCall -> Prop :=
| reach_start : reach start []
| reach_step a sent calls a' :
    reach a sent -> step a calls a' -> reach a' (sent ++ calls).

(** What a handler of the render of [r] may do: keep the inputs within
    their ranges, and send the request of that render; what it leaves
    suspended keeps the inputs within their ranges too. *)
Definition well_behaved (r : State) (h : handler) : Prop :=
  forall s s' ps, h s = (s', ps) ->
    (valid_inputs s -> valid_inputs s')
    /\ forall p, In p ps ->
         call p = simulate_call r
         /\ forall outcome x,
              valid_inputs x -> valid_inputs (resume p outcome x).

(** What an event of the user can do to the page in state [s]: the new
    state and the requests left in flight.  One case per control of the
    inputs card, with the handler [Home] passes for it. *)
Inductive effect (s : State) : State * list Pending -> Prop :=
| effect_fund v :
    In v FUNDS -> effect s (setFund v s, [])
| effect_initial text :
    effect s (setInitial (to_number text) s, [])
| effect_monthly text :
    effect s (setMonthly (to_number text) s, [])
| effect_years v :
    slider_emits 1 30 1 v -> effect s (setYears v s, [])
| effect_fee v :
    slider_emits 0 0.05 0.001 v ->
    effect s (setFee (numeral_value (toFixed v 3)) s, [])
| effect_nPaths v :
    simulationType s = monte_carlo ->
    slider_emits 1000 10000 500 v -> effect s (setNPaths v s, [])
| effect_type type :
    effect s (setResult VNull (setSimulationType type s), [])
| effect_run :
    loading s = false -> effect s (runSimulation s s).

End Render.

End Home.

(* ================================================================== *)
(** ** app/api/mc-simulate/route.ts                                   *)
(* ================================================================== *)

Module Route.

Record Request : Type := { request_body : string }.

Record Response : Type := {
  status : Z;
  content_type : string;
  response_body : string
}.

Section POST.

(** Built-ins of the platform: the JSON codec, and the network as what a
    request to a URL is answered with (or that it fails). *)
Variable JSON_parse : string -> option value.
Variable JSON_stringify : value -> string.
Variable fetch : string -> RequestInit -> exc Response.

(** [req.json()] and [res.json()]. *)
Definition json (text : string) : exc value :=
  match JSON_parse text with
  | Some v => Ok v
  | None => Throw SyntaxError
  end.

Definition NextResponse_json (data : value) : Response :=
  {| status := 200;
     content_type := "application/json";
     response_body := JSON_stringify data |}.

Definition backend : string := "http://localhost:8000/mc-simulate".

Definition forwarded (body : value) : RequestInit :=
  {| method := "POST";
     headers := json_headers;
     body := JSON_stringify body |}.

Definition POST (req : Request) : exc Response :=
  body <- json (request_body req) ;;
  res <- fetch backend (forwarded body) ;;
  data <- json (response_body res) ;;
  Ok (NextResponse_json data).

(** What the page's [await res.json()] yields for a call that this route
    serves (Next.js serves [app/api/mc-simulate/route.ts] at
    /api/mc-simulate): the route runs on the call's body, and the page
    decodes the body of its answer. *)
Definition serve (c : FetchCall) : exc value :=
  res <- POST {| request_body := body (init c) |} ;;
  json (response_body res).

End POST.

End Route.

(* ================================================================== *)
(** ** The JSON codec of the platform                                 *)
(* ================================================================== *)

(** [JSON.stringify] and [JSON.parse] of ECMA-262 on the values above, to
    run the page and the route on concrete texts.  The components take
    the codec as a parameter. *)

Module JSON.

(** *** QuoteJSONString

    Strings are byte strings holding UTF-8; a lone surrogate (which a
    [\u] escape can denote) is held in the same three-byte form. *)
Definition hex_digit (n : N) : ascii :=
  ascii_of_N (if n <? 10 then 48 + n else 87 + n)%N.

Definition escape_unit (unit : N) : string :=
  String "\" (String "u"
    (String (hex_digit (unit / 4096)%N)
       (String (hex_digit (unit / 256 mod 16)%N)
          (String (hex_digit (unit / 16 mod 16)%N)
             (String (hex_digit (unit mod 16)%N) EmptyString))))).

Definition mark : ascii := ascii_of_nat 34.

Fixpoint quote_body (s : string) : string :=
  match s with
  | EmptyString => String mark EmptyString
  | String c rest =>
      let n := N_of_ascii c in
      let escaped (e : string) := (String "\" e ++ quote_body rest)%string in
      if (n =? 34)%N then escaped (String mark EmptyString)
      else if (n =? 92)%N then escaped "\"
      else if (n =? 8)%N then escaped "b"
      else if (n =? 12)%N then escaped "f"
      else if (n =? 10)%N then escaped "n"
      else if (n =? 13)%N then escaped "r"
      else if (n =? 9)%N then escaped "t"
      else if (n <? 32)%N then (escape_unit n ++ quote_body rest)%string
      else
        match rest with
        | String c1 (String c2 rest2) =>
            let n1 := N_of_ascii c1 in
            let n2 := N_of_ascii c2 in
            if ((n =? 237) && (160 <=? n1))%N then
              (* a lone surrogate *)
              (escape_unit (53248 + (n1 mod 64) * 64 + n2 mod 64)%N
               ++ quote_body rest2)%string
            else String c (quote_body rest)
        | _ => String c (quote_body rest)
        end
  end.

Definition quote (s : string) : string := String mark (quote_body s).

(** *** JSON.stringify

    [undefined] is serialized as [null] inside an array and left out of
    an object; the numbers that are not finite are serialized as [null].
    (At the top [JSON.stringify(undefined)] is [undefined], no text; the
    sources serialize object literals and decoded JSON only.) *)
Definition defined (v : value) : bool :=
  match v with
  | VUndefined => false
  | _ => true
  end.

Fixpoint stringify (v : value) : string :=
  match v with
  | VUndefined | VNull | VNonFinite _ => "null"
  | VBool true => "true"
  | VBool false => "false"
  | VNumber q =>
      match binary64 q with
      | Finite x => number_string x
      | NonFinite _ => "null"
      end
  | VString s => quote s
  | VArray items =>
      ("[" ++ String.concat "," (map stringify items) ++ "]")%string
  | VObject fs =>
      ("{"
       ++ String.concat ","
            (flat_map
               (fun kv =>
                  if defined (snd kv)
                  then [quote (fst kv) ++ ":" ++ stringify (snd kv)]
                  else [])
               fs)
       ++ "}")%string
  end.

(** *** JSON.parse

    A number literal denotes the binary64 number nearest to the decimal
    it spells, an infinity beyond the range; a repeated key keeps its
    first place and takes the last value. *)

Definition is_space (c : ascii) : bool :=
  let n := N_of_ascii c in
  ((n =? 32) || (n =? 9) || (n =? 10) || (n =? 13))%N.

Fixpoint skip (s : string) : string :=
  match s with
  | String c rest => if is_space c then skip rest else s
  | EmptyString => s
  end.

Definition digit (c : ascii) : option Z :=
  let n := Z.of_N (N_of_ascii c) in
  if ((48 <=? n) && (n <=? 57))%Z then Some (n - 48)%Z else None.

(** A run of digits: its value, its length and what follows. *)
Fixpoint digit_run (s : string) (acc count : Z) : Z * Z * string :=
  match s with
  | String c rest =>
      match digit c with
      | Some d => digit_run rest (acc * 10 + d)%Z (count + 1)%Z
      | None => (acc, count, s)
      end
  | EmptyString => (acc, count, s)
  end.

Definition fraction (s : string) : option (Z * Z * string) :=
  match s with
  | String "." rest =>
      let '(f, n, rest') := digit_run rest 0 0 in
      if (n =? 0)%Z then None else Some (f, n, rest')
  | _ => Some (0, 0, s)%Z
  end.

Definition exponent (s : string) : option (Z * string) :=
  let unsigned (negative : bool) (rest : string) :=
    let '(e, n, rest') := digit_run rest 0 0 in
    if (n =? 0)%Z then None
    else Some (if negative then (- e)%Z else e, rest') in
  match s with
  | String c rest =>
      if (Ascii.eqb c "e" || Ascii.eqb c "E")%bool then
        match rest with
        | String "+" rest' => unsigned false rest'
        | String "-" rest' => unsigned true rest'
        | _ => unsigned false rest
        end
      else Some (0%Z, s)
  | EmptyString => Some (0%Z, s)
  end.

(** A number literal and the rational it spells. *)
Definition literal (s : string) : option (Q * string) :=
  let '(negative, s) :=
    match s with
    | String "-" rest => (true, rest)
    | _ => (false, s)
    end in
  match s with
  | String c rest =>
      match digit c with
      | None => None
      | Some d =>
          let '(whole, s) :=
            if (d =? 0)%Z then (0%Z, rest)
            else let '(w, _, rest') := digit_run s 0 0 in (w, rest') in
          match fraction s with
          | None => None
          | Some (f, n, s) =>
              match exponent s with
              | None => None
              | Some (e, s) =>
                  let q := (inject_Z (whole * 10 ^ n + f) * ten_to (e - n))%Q in
                  Some (if negative then (- q)%Q else q, s)
              end
          end
      end
  | EmptyString => None
  end.

Definition hex (c : ascii) : option N :=
  let n := N_of_ascii c in
  if ((48 <=? n) && (n <=? 57))%N then Some (n - 48)%N
  else if ((65 <=? n) && (n <=? 70))%N then Some (n - 55)%N
  else if ((97 <=? n) && (n <=? 102))%N then Some (n - 87)%N
  else None.

Definition hex4 (a b c d : ascii) : option N :=
  match hex a, hex b, hex c, hex d with
  | Some x, Some y, Some z, Some w => Some (x * 4096 + y * 256 + z * 16 + w)%N
  | _, _, _, _ => None
  end.

(** The UTF-8 bytes of a code point. *)
Definition utf8 (cp : N) (rest : string) : string :=
  let byte (n : N) := ascii_of_N n in
  (if cp <? 128 then String (byte cp) rest
   else if cp <? 2048 then
     String (byte (192 + cp / 64)) (String (byte (128 + cp mod 64)) rest)
   else if cp <? 65536 then
     String (byte (224 + cp / 4096))
       (String (byte (128 + cp / 64 mod 64))
          (String (byte (128 + cp mod 64)) rest))
   else
     String (byte (240 + cp / 262144))
       (String (byte (128 + cp / 4096 mod 64))
          (String (byte (128 + cp / 64 mod 64))
             (String (byte (128 + cp mod 64)) rest))))%N.

Definition high_surrogate (u : N) : bool := ((55296 <=? u) && (u <? 56320))%N.
Definition low_surrogate (u : N) : bool := ((56320 <=? u) && (u <? 57344))%N.

(** The characters of a string literal after its opening quote. *)
Fixpoint text (s : string) : option (string * string) :=
  let cons (c : ascii) (r : option (string * string)) :=
    match r with
    | Some (t, rest) => Some (String c t, rest)
    | None => None
    end in
  let unit (u : N) (r : option (string * string)) :=
    match r with
    | Some (t, rest) => Some (utf8 u t, rest)
    | None => None
    end in
  match s with
  | EmptyString => None
  | String c rest =>
      let n := N_of_ascii c in
      if (n =? 34)%N then Some (EmptyString, rest)
      else if (n <? 32)%N then None
      else if (n =? 92)%N then
        match rest with
        | String "u" (String a (String b (String c1 (String d rest1)))) =>
            match hex4 a b c1 d with
            | None => None
            | Some u =>
                match rest1 with
                | String "\" (String "u"
                    (String a2 (String b2 (String c2 (String d2 rest2))))) =>
                    match hex4 a2 b2 c2 d2 with
                    | Some l =>
                        if (high_surrogate u && low_surrogate l)%bool then
                          unit (65536 + (u - 55296) * 1024 + (l - 56320))%N
                               (text rest2)
                        else unit u (text rest1)
                    | None => unit u (text rest1)
                    end
                | _ => unit u (text rest1)
                end
            end
        | String e rest1 =>
            let ne := N_of_ascii e in
            if (ne =? 34)%N then cons e (text rest1)
            else if (ne =? 92)%N then cons e (text rest1)
            else if (ne =? 47)%N then cons e (text rest1)
            else if Ascii.eqb e "b" then cons (ascii_of_N 8) (text rest1)
            else if Ascii.eqb e "f" then cons (ascii_of_N 12) (text rest1)
            else if Ascii.eqb e "n" then cons (ascii_of_N 10) (text rest1)
            else if Ascii.eqb e "r" then cons (ascii_of_N 13) (text rest1)
            else if Ascii.eqb e "t" then cons (ascii_of_N 9) (text rest1)
            else None
        | EmptyString => None
        end
      else cons c (text rest)
  end.

Fixpoint strip (prefix s : string) : option string :=
  match prefix, s with
  | EmptyString, _ => Some s
  | String a p, String b rest => if Ascii.eqb a b then strip p rest else None
  | _, EmptyString => None
  end.

Definition keyword (word : string) (v : value) (s : string)
  : option (value * string) :=
  match strip word s with
  | Some rest => Some (v, rest)
  | None => None
  end.

(** A JSON value at the head of [s], after white space. *)
Fixpoint element (fuel : nat) (s : string) {struct fuel}
  : option (value * string) :=
  match fuel with
  | O => None
  | S fuel =>
      match skip s with
      | EmptyString => None
      | String c rest as s1 =>
          let n := N_of_ascii c in
          if (n =? 34)%N then
            match text rest with
            | Some (t, rest1) => Some (VString t, rest1)
            | None => None
            end
          else if Ascii.eqb c "[" then
            match skip rest with
            | String "]" rest1 => Some (VArray [], rest1)
            | _ => elements fuel rest []
            end
          else if Ascii.eqb c "{" then
            match skip rest with
            | String "}" rest1 => Some (VObject [], rest1)
            | _ => members fuel rest []
            end
          else if Ascii.eqb c "n" then keyword "null" VNull s1
          else if Ascii.eqb c "t" then keyword "true" (VBool true) s1
          else if Ascii.eqb c "f" then keyword "false" (VBool false) s1
          else
            match literal s1 with
            | Some (q, rest1) => Some (number_value (binary64 q), rest1)
            | None => None
            end
      end
  end
with elements (fuel : nat) (s : string) (before : list value) {struct fuel}
  : option (value * string) :=
  match fuel with
  | O => None
  | S fuel =>
      match element fuel s with
      | Some (v, rest) =>
          match skip rest with
          | String "," rest1 => elements fuel rest1 (before ++ [v])
          | String "]" rest1 => Some (VArray (before ++ [v]), rest1)
          | _ => None
          end
      | None => None
      end
  end
with members (fuel : nat) (s : string) (before : list (string * value))
       {struct fuel} : option (value * string) :=
  match fuel with
  | O => None
  | S fuel =>
      match skip s with
      | String c rest =>
          if (N_of_ascii c =? 34)%N then
            match text rest with
            | Some (k, rest1) =>
                match skip rest1 with
                | String ":" rest2 =>
                    match element fuel rest2 with
                    | Some (v, rest3) =>
                        match skip rest3 with
                        | String "," r => members fuel r (define k v before)
                        | String "}" r => Some (VObject (define k v before), r)
                        | _ => None
                        end
                    | None => None
                    end
                | _ => None
                end
            | None => None
            end
          else None
      | EmptyString => None
      end
  end.

Definition parse (s : string) : option value :=
  match element (2 * String.length s + 2) s with
  | Some (v, rest) =>
      match skip rest with
      | EmptyString => Some v
      | _ => None
      end
  | None => None
  end.

End JSON.

(* ================================================================== *)
(** ** The percentile report of the simulation engine                 *)
(* ================================================================== *)

Module Engine.

(** Modelled from the spec: the risk-metrics aggregator belongs to the
    Python back end ([opcvm_simulator.py]), which is not among the
    sources.  Section 4.4: the percentiles p5, p50 and p95 are computed
    over the post-tax net final values of the paths, by linear
    interpolation between order statistics; section 5: the values are
    sorted first. *)
Fixpoint insert (x : Q) (l : list Q) : list Q :=
  match l with
  | [] => [x]
  | y :: rest => if Qle_bool x y then x :: l else y :: insert x rest
  end.

Fixpoint sort (l : list Q) : list Q :=
  match l with
  | [] => []
  | x :: rest => insert x (sort rest)
  end.

(** Modelled from the spec: the value at fractional position [rank] of an
    ascending list, between the order statistics on either side of it. *)
Definition interpolate (sorted : list Q) (rank : Q) : Q :=
  let lo := Z.to_nat (Qfloor rank) in
  let frac := (rank - inject_Z (Qfloor rank))%Q in
  let a := nth lo sorted 0%Q in
  let b := nth (S lo) sorted a in
  (a + frac * (b - a))%Q.

(** Modelled from the spec: the [q]-th percentile, [0 <= q <= 100], sits
    at position [q / 100 * (n - 1)] of the [n] sorted values. *)
Definition percentile (values : list Q) (q : Q) : Q :=
  let sorted := sort values in
  let n := Z.of_nat (List.length sorted) in
  interpolate sorted (q / 100 * inject_Z (n - 1))%Q.

Record Percentiles : Type := { p5 : Q; p50 : Q; p95 : Q }.

(** Modelled from the spec: the [percentiles] entry of a Monte Carlo
    result. *)
Definition percentiles (net_final_values : list Q) : Percentiles :=
  {| p5 := percentile net_final_values 5;
     p50 := percentile net_final_values 50;
     p95 := percentile net_final_values 95 |}.

End Engine.

(* ================================================================== *)
(** ** The boundary of the simulation engine                          *)
(* ================================================================== *)

Module Boundary.

(** Modelled from the spec: request validation belongs to the Python back
    end ([server.py]), which is not among the sources.  Section 3: a
    SimulationRequest is a fund identifier, an initial amount (>= 0), a
    monthly contribution (>= 0), a horizon in years (integer, 1-30), an
    annual fee (0-0.05) and an optional path count (integer,
    1,000-10,000). *)
Record SimulationRequest : Type := {
  fund : string;
  initial_amount : Q;
  monthly_contribution : Q;
  years : Q;
  annual_fee : Q;
  n_paths : option Q
}.

(** Modelled from the spec: section 7, the errors a caller can get. *)
Inductive failure : Type :=
| InvalidFund        (* identifier not present in the catalog *)
| InvalidParameter   (* an input outside its documented domain *).

(** A whole number; a number within a range, bounds included. *)
Definition integer (q : Q) : bool := Qeq_bool q (inject_Z (Qfloor q)).

Definition between (lo hi q : Q) : bool := Qle_bool lo q && Qle_bool q hi.

(** Modelled from the spec: the documented domain of every input. *)
Definition in_domain (r : SimulationRequest) : bool :=
  Qle_bool 0 (initial_amount r)
  && Qle_bool 0 (monthly_contribution r)
  && (integer (years r) && between 1 30 (years r))
  && between 0 0.05 (annual_fee r)
  && match n_paths r with
     | Some n => integer n && between 1000 10000 n
     | None => true
     end.

Section Facade.

Variables Fund Result : Type.

(** The fund catalog, and the engine proper: the projector, or the path
    simulator with the aggregator. *)
Variable lookup : string -> option Fund.
Variable engine : Fund -> SimulationRequest -> Result.

(** Modelled from the spec: sections 3 and 7, "invalid values are
    rejected before engine invocation", "surfaced immediately, engine
    never silently clamps"; section 2, the facade looks the fund up and
    runs the engine on the validated request. *)
Definition simulate (r : SimulationRequest) : failure + Result :=
  if in_domain r then
    match lookup (fund r) with
    | Some f => inr (engine f r)
    | None => inl InvalidFund
    end
  else inl InvalidParameter.

End Facade.

Arguments simulate {Fund Result} lookup engine r.

End Boundary.

(* ================================================================== *)
(** ** The result structure as the specification words it             *)
(* ================================================================== *)

Inductive presence : Type :=
| always
| deterministic_only
| monte_carlo_only.

(** The specification's SimulationResult, field by field, with the
    members of the two nested groups: fund name, category, assumed annual
    return, years, gross final value, net final value, net profit after
    tax, tax paid, total contributed; optional trajectory; optional
    assumed annual volatility, path count, percentiles {p5, p50, p95},
    probability of loss, risk metrics {annualized volatility, Sharpe,
    Sortino, mean max drawdown, Calmar}. *)
Definition spec_SimulationResult : list (string * presence * list string) :=
  [ ("fund_name", always, []);
    ("category", always, []);
    ("assumed_annual_return", always, []);
    ("years", always, []);
    ("gross_final_value", always, []);
    ("net_final_value", always, []);
    ("net_profit_after_tax", always, []);
    ("tax_paid", always, []);
    ("total_contributed", always, []);
    ("trajectory", deterministic_only, []);
    ("assumed_annual_vol", monte_carlo_only, []);
    ("n_paths", monte_carlo_only, []);
    ("percentiles", monte_carlo_only, ["p5"; "p50"; "p95"]);
    ("prob_loss", monte_carlo_only, []);
    ("risk_metrics", monte_carlo_only,
     ["annualized_vol"; "sharpe"; "sortino"; "max_drawdown_mean"; "calmar"]) ].

Definition is_optional (p : presence) : bool :=
  match p with
  | always => false
  | deterministic_only | monte_carlo_only => true
  end.

(** The members of a field's type when it is an object type; an array
    type is not a group of named members. *)
Definition members (t : tstype) : list string :=
  match t with
  | TObject decls => map (fun d => fst (fst d)) decls
  | _ => []
  end.

(** The declared shape of an interface: name, optionality, members. *)
Definition shape (t : tstype) : list (string * bool * list string) :=
  match t with
  | TObject decls =>
      map (fun d => (fst (fst d), snd (fst d), members (snd d))) decls
  | _ => []
  end.

(* ================================================================== *)
(** ** The floating-point unit, to compare the model of numbers with  *)
(* ================================================================== *)

Module Hardware.

Definition of_Z (n : Z) : PrimFloat.float :=
  PrimFloat.of_uint63 (Uint63.of_Z n).

(** [n / d], rounded by the division of the unit. *)
Definition quotient (n d : Z) : PrimFloat.float :=
  PrimFloat.div (of_Z n) (of_Z d).

(** The value of a finite float. *)
Definition rational (f : PrimFloat.float) : option Q :=
  match FloatOps.Prim2SF f with
  | SpecFloat.S754_zero _ => Some 0%Q
  | SpecFloat.S754_finite negative m e =>
      let v := (inject_Z (Zpos m) * pow2 e)%Q in
      Some (Qred (if negative then (- v)%Q else v))
  | _ => None
  end.

End Hardware.

(* ================================================================== *)
(** ** Stand-ins for the platform, to run the model on inputs         *)
(* ================================================================== *)

Module Sample.

(** The theorems below hold for every choice of the built-ins; these
    simple ones serve to evaluate the model on concrete inputs. *)
Definition toLocaleString (q : Q) : string := numeral_string (toFixed q 0).

Definition Intl_NumberFormat (locale : string)
  (options : list (string * value)) : NumberFormat :=
  {| format := fun v =>
       match v with
       | VNumber q => numeral_string (toFixed q 2)
       | VNonFinite x => nonfinite_string x
       | _ => "NaN"
       end |}.

Definition JSON_stringify : value -> string := JSON.stringify.

Definition JSON_parse : string -> option value := JSON.parse.

(** A Monte Carlo result as the back end would answer it. *)
Definition mc_result : value :=
  VObject
    [ ("fund_name", VString "ATTIJARI ACTIONS");
      ("category", VString "Actions");
      ("assumed_annual_return", VNumber 0.08);
      ("years", VNumber 5);
      ("gross_final_value", VNumber 340000);
      ("net_final_value", VNumber 325000);
      ("net_profit_after_tax", VNumber 38250);
      ("tax_paid", VNumber 6750);
      ("total_contributed", VNumber 280000);
      ("assumed_annual_vol", VNumber 0.15);
      ("n_paths", VNumber 5000);
      ("percentiles",
       VObject [ ("p5", VNumber 250000); ("p50", VNumber 320000);
                 ("p95", VNumber 410000) ]);
      ("prob_loss", VNumber 0.12);
      ("risk_metrics",
       VObject [ ("annualized_vol", VNumber 0.15); ("sharpe", VNumber 0.5);
                 ("sortino", VNumber 0.7);
                 ("max_drawdown_mean", VNumber 0.2);
                 ("calmar", VNumber 0.4) ]) ].

(** A page whose user typed [-1] as the initial amount. *)
Definition negative_initial : Home.App :=
  {| Home.home := Home.setInitial (-1) Home.initial_state;
     Home.pending := [] |}.

(** The page with MC Simulation selected. *)
Definition monte_carlo_page : Home.State :=
  Home.setSimulationType monte_carlo Home.initial_state.

(** A back end that fails. *)
Definition dead_backend (url : string) (init : RequestInit)
  : exc Route.Response :=
  Throw NetworkError.

(** A back end that answers 422 with the JSON text [null]. *)
Definition refusing_backend (url : string) (init : RequestInit)
  : exc Route.Response :=
  Ok {| Route.status := 422;
        Route.content_type := "application/json";
        Route.response_body := "null" |}.

(** A back end that answers with the text it was sent. *)
Definition echo_backend (url : string) (init : RequestInit)
  : exc Route.Response :=
  Ok {| Route.status := 200;
        Route.content_type := "application/json";
        Route.response_body := body init |}.

(** A back end that answers the Monte Carlo result above. *)
Definition mc_text : string := JSON.stringify mc_result.

Definition mc_backend (url : string) (init : RequestInit)
  : exc Route.Response :=
  Ok {| Route.status := 200;
        Route.content_type := "application/json";
        Route.response_body := mc_text |}.

(** What a JSON text decodes to. *)
Definition decoded (text : string) : value :=
  match JSON.parse text with
  | Some v => v
  | None => VUndefined
  end.

(** A request body with a number beyond the binary64 range, and the same
    body with [null] in its place. *)
Definition overflowing_text : string := "{" ++ JSON.quote "x" ++ ":1e400}".

Definition nulled_text : string := "{" ++ JSON.quote "x" ++ ":null}".

(** Answers whose figures are not numbers: a Sharpe ratio that is a
    string, and a net final value that is an object with a [toString]
    member. *)
Definition text_sharpe : value :=
  VObject
    [ ("category", VString "Actions");
      ("risk_metrics", VObject [("sharpe", VString "abc")]) ].

Definition object_figure : value :=
  VObject
    [ ("category", VString "Actions");
      ("net_final_value", VObject [("toString", VNumber 1)]) ].

(** The page holding a result under a simulation type. *)
Definition page_showing (result : value) (type : SimulationType)
  : Home.State :=
  Home.setResult result (Home.setSimulationType type Home.initial_state).

(** A request with the initial amount -1, a catalog that knows every
    fund and an engine that echoes the request. *)
Definition negative_request : Boundary.SimulationRequest :=
  {| Boundary.fund := "ATTIJARI ACTIONS";
     Boundary.initial_amount := -1;
     Boundary.monthly_contribution := 3000;
     Boundary.years := 5;
     Boundary.annual_fee := 0.018;
     Boundary.n_paths := None |}.

Definition any_fund (identifier : string) : option string := Some identifier.

Definition echo_engine (fund : string) (r : Boundary.SimulationRequest)
  : Boundary.SimulationRequest := r.

End Sample.

(* ================================================================== *)
(** * Properties                                                      *)
(* ================================================================== *)

(** ** Rounding to binary64 *)

Section Rounding.

Local Open Scope Q_scope.

Lemma pow2_pos k : 0 < pow2 k.
Proof.
  unfold pow2. destruct (0 <=? k)%Z eqn:E.
  - apply Z.leb_le in E. change 0 with (inject_Z 0). rewrite <- Zlt_Qlt.
    apply Z.pow_pos_nonneg; lia.
  - reflexivity.
Qed.

Lemma pow2_le_1 k : (k <= 0)%Z -> pow2 k <= 1.
Proof.
  intros H. unfold pow2. destruct (0 <=? k)%Z eqn:E.
  - apply Z.leb_le in E. assert (k = 0)%Z as -> by lia. apply Qle_refl.
  - unfold Qle. cbn [Qnum Qden]. lia.
Qed.

Lemma pow2_mono a b : (a <= b)%Z -> pow2 a <= pow2 b.
Proof.
  intros H. unfold pow2.
  destruct (0 <=? a)%Z eqn:Ea, (0 <=? b)%Z eqn:Eb.
  - apply Z.leb_le in Ea, Eb. rewrite <- Zle_Qle. apply Z.pow_le_mono_r; lia.
  - apply Z.leb_le in Ea. apply Z.leb_gt in Eb. lia.
  - apply Z.leb_gt in Ea. apply Z.leb_le in Eb.
    unfold Qle. cbn [Qnum Qden inject_Z].
    assert (0 < 2 ^ b)%Z by (apply Z.pow_pos_nonneg; lia).
    assert (0 < 2 ^ (- a))%Z by (apply Z.pow_pos_nonneg; lia).
    rewrite Z2Pos.id by assumption. nia.
  - apply Z.leb_gt in Ea, Eb. unfold Qle. cbn [Qnum Qden].
    assert (0 < 2 ^ (- b))%Z by (apply Z.pow_pos_nonneg; lia).
    assert (0 < 2 ^ (- a))%Z by (apply Z.pow_pos_nonneg; lia).
    rewrite !Z2Pos.id by assumption.
    assert (2 ^ (- b) <= 2 ^ (- a))%Z by (apply Z.pow_le_mono_r; lia). lia.
Qed.

Lemma round_half_even_spec x :
  inject_Z (round_half_even x) - (1 # 2) <= x
  /\ x <= inject_Z (round_half_even x) + (1 # 2).
Proof.
  unfold round_half_even.
  pose proof (Qfloor_le x) as L. pose proof (Qlt_floor x) as U.
  rewrite inject_Z_plus in U. change (inject_Z 1) with 1 in U.
  destruct (Qcompare (x - inject_Z (Qfloor x)) (1 # 2)) eqn:C.
  - apply Qeq_alt in C. destruct (Z.even (Qfloor x)).
    + split; lra.
    + rewrite inject_Z_plus. change (inject_Z 1) with 1. split; lra.
  - apply Qlt_alt in C. split; lra.
  - apply Qgt_alt in C. rewrite inject_Z_plus. change (inject_Z 1) with 1. split; lra.
Qed.

Lemma round_half_even_nonneg x : 0 <= x -> (0 <= round_half_even x)%Z.
Proof.
  intros H. unfold round_half_even.
  apply Qfloor_resp_le in H. change (Qfloor 0) with 0%Z in H.
  destruct (Qcompare _ _); [destruct (Z.even _)| |]; lia.
Qed.

Lemma round_half_even_Z n : round_half_even (inject_Z n) = n.
Proof.
  unfold round_half_even. rewrite Qfloor_Z.
  assert (inject_Z n - inject_Z n == 0) as E by ring.
  rewrite (Qcompare_comp _ _ E _ _ (Qeq_refl _)) . reflexivity.
Qed.

Lemma ilog2_le_0 q : 0 < q -> q <= 1 -> (ilog2 q <= 0)%Z.
Proof.
  intros P H. unfold ilog2.
  assert (Z.log2 (Qnum q) <= Z.log2 (Zpos (Qden q)))%Z as L.
  { apply Z.log2_le_mono. unfold Qle in H. cbn [Qnum Qden] in H. lia. }
  destruct (Qle_bool _ _); lia.
Qed.

Lemma nearest_positive_spec q :
  0 < q ->
  let ulp := pow2 (Z.max (ilog2 q) (-1022) - 52) in
  0 <= nearest_positive q
  /\ q - (1 # 2) * ulp <= nearest_positive q
  /\ nearest_positive q <= q + (1 # 2) * ulp.
Proof.
  intros P ulp. unfold nearest_positive. fold ulp.
  pose proof (pow2_pos (Z.max (ilog2 q) (-1022) - 52)) as U. fold ulp in U.
  rewrite Qred_correct.
  assert (0 <= q / ulp) as N.
  { apply Qle_shift_div_l; [exact U|]. lra. }
  pose proof (round_half_even_nonneg _ N) as M0.
  destruct (round_half_even_spec (q / ulp)) as [A B].
  set (m := inject_Z (round_half_even (q / ulp))) in *.
  assert (0 <= m) as M1.
  { subst m. change 0 with (inject_Z 0). rewrite <- Zle_Qle. exact M0. }
  assert (q == q / ulp * ulp) as E.
  { field. intros Z. rewrite Z in U. apply (Qlt_irrefl 0). exact U. }
  clearbody m ulp.
  set (x := q / ulp) in *. clearbody x.
  split; [nra|]. split; nra.
Qed.

Lemma nearest_small q :
  0 <= q -> q <= 1 ->
  0 <= nearest q /\ nearest q <= q + (1 # 2) * pow2 (-52).
Proof.
  intros P H. unfold nearest.
  destruct (Qcompare q 0) eqn:C.
  - apply Qeq_alt in C. pose proof (pow2_pos (-52)). split; lra.
  - apply Qlt_alt in C. lra.
  - apply Qgt_alt in C.
    destruct (nearest_positive_spec q C) as (A & _ & B).
    split; [exact A|].
    pose proof (ilog2_le_0 q C H) as L.
    assert (pow2 (Z.max (ilog2 q) (-1022) - 52) <= pow2 (-52)) as K
        by (apply pow2_mono; lia).
    lra.
Qed.

Lemma ilog2_Z n : (0 < n)%Z -> ilog2 (inject_Z n) = Z.log2 n.
Proof.
  intros P. unfold ilog2. cbn [inject_Z Qnum Qden]. change (Z.log2 1) with 0%Z.
  rewrite Z.sub_0_r.
  assert (Qle_bool (pow2 (Z.log2 n)) (inject_Z n) = true) as ->; [|reflexivity].
  apply Qle_bool_iff. unfold pow2.
  pose proof (Z.log2_nonneg n) as L. apply Z.leb_le in L. rewrite L.
  rewrite <- Zle_Qle.
  apply Z.log2_spec. exact P.
Qed.

Lemma nearest_Z n : (Z.abs n <= 2 ^ 53)%Z -> nearest (inject_Z n) = inject_Z n.
Proof.
  assert (forall n, (0 < n <= 2 ^ 53)%Z -> nearest_positive (inject_Z n) = inject_Z n) as K.
  { clear n. intros n [P H]. unfold nearest_positive.
    rewrite (ilog2_Z n P).
    pose proof (Z.log2_nonneg n) as L0.
    assert (Z.log2 n <= 53)%Z as L1.
    { change 53%Z with (Z.log2 (2 ^ 53)). apply Z.log2_le_mono. exact H. }
    rewrite Z.max_l by lia.
    set (e := Z.log2 n) in *.
    assert (Qred (inject_Z n) = inject_Z n) as R.
    { apply Qcanon.Qred_identity. cbn [inject_Z Qnum Qden]. apply Z.gcd_1_r. }
    rewrite <- R at 2. apply Qred_complete.
    destruct (Z.eq_dec e 53) as [E53 | NE].
    - (* n = 2^53 *)
      assert (n = 2 ^ 53)%Z as ->.
      { pose proof (Z.log2_spec n P) as S. fold e in S. rewrite E53 in S. lia. }
      rewrite E53. vm_compute. reflexivity.
    - assert (e - 52 <= 0)%Z as Le by lia.
      assert (exists k, (0 <= k)%Z /\ pow2 (e - 52) == 1 / inject_Z (2 ^ k)) as (k & Hk & Ek).
      { exists (52 - e)%Z. split; [lia|]. unfold pow2.
        destruct (0 <=? e - 52)%Z eqn:B.
        - apply Z.leb_le in B. assert (e = 52)%Z as -> by lia. reflexivity.
        - replace (- (e - 52))%Z with (52 - e)%Z by lia.
          assert (0 < 2 ^ (52 - e))%Z as Pp by (apply Z.pow_pos_nonneg; lia).
          unfold Qeq, Qdiv, Qmult, Qinv. cbn [Qnum Qden inject_Z].
          destruct (2 ^ (52 - e))%Z eqn:W; try lia. cbn. lia. }
      assert (0 < 2 ^ k)%Z as Pk by (apply Z.pow_pos_nonneg; lia).
      assert (0 < inject_Z (2 ^ k)) as Qk.
      { change 0 with (inject_Z 0). rewrite <- Zlt_Qlt. exact Pk. }
      assert (inject_Z n / pow2 (e - 52) == inject_Z (n * 2 ^ k)) as D.
      { rewrite Ek, inject_Z_mult. field. lra. }
      assert (round_half_even (inject_Z n / pow2 (e - 52)) = (n * 2 ^ k)%Z) as ->.
      { rewrite <- (round_half_even_Z (n * 2 ^ k)).
        unfold round_half_even. rewrite (Qfloor_comp _ _ D).
        assert (inject_Z n / pow2 (e - 52) - inject_Z (Qfloor (inject_Z (n * 2 ^ k)))
                == inject_Z (n * 2 ^ k) - inject_Z (Qfloor (inject_Z (n * 2 ^ k)))) as D'
            by (rewrite D; reflexivity).
        rewrite (Qcompare_comp _ _ D' _ _ (Qeq_refl _)). reflexivity. }
      rewrite Ek, inject_Z_mult. field. lra. }
  intros H. unfold nearest.
  destruct (Qcompare (inject_Z n) 0) eqn:C.
  - apply Qeq_alt in C. unfold Qeq in C. cbn in C.
    assert (n = 0)%Z as -> by lia. reflexivity.
  - apply Qlt_alt in C. change 0 with (inject_Z 0) in C. rewrite <- Zlt_Qlt in C.
    assert (- inject_Z n = inject_Z (- n)) as -> by reflexivity.
    rewrite K by lia.
    assert (- inject_Z (- n) = inject_Z n) as ->.
    { unfold Qopp, inject_Z. cbn. rewrite Z.opp_involutive. reflexivity. }
    apply Qcanon.Qred_identity. cbn [inject_Z Qnum Qden]. apply Z.gcd_1_r.
  - apply Qgt_alt in C. change 0 with (inject_Z 0) in C. rewrite <- Zlt_Qlt in C.
    apply K. lia.
Qed.

Lemma Qplus_inject_Z (a b : Z) : inject_Z a + inject_Z b = inject_Z (a + b).
Proof.
  unfold Qplus, inject_Z. cbn [Qnum Qden]. rewrite !Z.mul_1_r. reflexivity.
Qed.

Lemma Qmult_inject_Z (a b : Z) : inject_Z a * inject_Z b = inject_Z (a * b).
Proof. reflexivity. Qed.

(** A whole number of magnitude at most [2^53] is a binary64 number. *)
Lemma binary64_Z (n : Z) :
  (Z.abs n <= 2 ^ 53)%Z -> binary64 (inject_Z n) = Finite (inject_Z n).
Proof.
  intros H. unfold binary64. rewrite (nearest_Z n H).
  assert (Qle_bool (pow2 1024) (inject_Z n) = false) as ->.
  { destruct (Qle_bool (pow2 1024) (inject_Z n)) eqn:E; [|reflexivity].
    apply Qle_bool_iff in E. exfalso.
    assert (inject_Z n <= inject_Z (2 ^ 53)) as L by (rewrite <- Zle_Qle; lia).
    assert (inject_Z (2 ^ 53) < pow2 1024) as K by reflexivity.
    lra. }
  assert (Qle_bool (inject_Z n) (- pow2 1024) = false) as ->; [|reflexivity].
  destruct (Qle_bool (inject_Z n) (- pow2 1024)) eqn:E; [|reflexivity].
  apply Qle_bool_iff in E. exfalso.
  assert (inject_Z (- 2 ^ 53) <= inject_Z n) as L by (rewrite <- Zle_Qle; lia).
  assert (- pow2 1024 < inject_Z (- 2 ^ 53)) as K by reflexivity.
  lra.
Qed.

End Rounding.

Section Builtins.

Variable JSON_stringify : value -> string.
Variable toLocaleString : Q -> string.
Variable Intl_NumberFormat : string -> list (string * value) -> NumberFormat.

Local Abbreviation mad := (Home.mad Intl_NumberFormat).
Local Abbreviation props := (Home.props JSON_stringify Intl_NumberFormat).
Local Abbreviation runSimulation := (Home.runSimulation JSON_stringify).

(** ** The footer of the inputs card *)

(** C1: whatever the initial amount, the monthly contribution and the
    horizon held in the page's state, the inputs card displays, after the
    caption "Total contributed:", the formatted value of
    [initial + monthly * years * 12] as JavaScript computes it (the
    product and the sum rounded to binary64).  The value does not depend
    on the simulation type: the card of either mode displays it, and
    switching the type leaves it as it is.  When the three inputs and
    every intermediate result are whole numbers of magnitude at most
    [2^53], nothing is rounded and the value is exactly
    [initial + monthly * years * 12]. *)
Theorem C1_total_contributed_displayed (s : Home.State) :
  shows (SimulationInputs.render toLocaleString (props s))
    [ Literal "Total contributed:"; Dynamic (VString " ");
      Dynamic
        (VString
           (format mad
              (number_value
                 (number_add (binary64 (Home.initial s))
                    (number_mul
                       (number_mul (binary64 (Home.monthly s))
                          (binary64 (Home.years s)))
                       (Finite 12)))))) ]
  /\ (forall type : SimulationType,
        Home.totalContributed (Home.setSimulationType type s)
        = Home.totalContributed s)
  /\ (forall i c y : Z,
        Home.initial s = inject_Z i ->
        Home.monthly s = inject_Z c ->
        Home.years s = inject_Z y ->
        (Z.abs i <= 2 ^ 53 /\ Z.abs c <= 2 ^ 53 /\ Z.abs y <= 2 ^ 53
         /\ Z.abs (c * y) <= 2 ^ 53 /\ Z.abs (c * y * 12) <= 2 ^ 53
         /\ Z.abs (i + c * y * 12) <= 2 ^ 53)%Z ->
        Home.totalContributed s = Finite (inject_Z (i + c * y * 12))).
Proof.
  split; [|split].
  - destruct s as [f i m y fe n res [|] l].
    + exists 26%nat. reflexivity.
    + exists 28%nat. reflexivity.
  - intros type. reflexivity.
  - intros i c y Hi Hc Hy (Bi & Bc & By & Bcy & Bm & Bs).
    unfold Home.totalContributed. rewrite Hi, Hc, Hy.
    rewrite !binary64_Z by assumption.
    cbn [number_mul]. rewrite Qmult_inject_Z, binary64_Z by assumption.
    cbn [number_mul]. change (Finite 12) with (Finite (inject_Z 12)).
    change 12%Q with (inject_Z 12).
    rewrite Qmult_inject_Z, binary64_Z by assumption.
    cbn [number_add]. rewrite Qplus_inject_Z. apply binary64_Z. assumption.
Qed.

(** ** The request of [runSimulation] *)

(** C3: [runSimulation] sends exactly one POST request; in deterministic
    mode it goes to /api/simulate and its body has no [n_paths] field, in
    Monte Carlo mode it goes to /api/mc-simulate and its body has
    [n_paths] with the state's path count; the fields [fund_name],
    [initial_amount], [monthly_contribution], [years] and [annual_fee]
    carry the state's values in both modes, and the body has no other
    field. *)
Theorem C3_request_by_mode (s : Home.State) :
  map Home.call (snd (runSimulation s s))
  = [ Home.simulate_call JSON_stringify s ]
  /\ Home.simulate_call JSON_stringify s
  = {| url := match Home.simulationType s with
                | deterministic => "/api/simulate"
                | monte_carlo => "/api/mc-simulate"
                end;
         init := {| method := "POST";
                    headers := json_headers;
                    body := JSON_stringify (Home.requestBody s) |} |}
  /\ Home.requestBody s
     = VObject
         ([ ("fund_name", VString (Home.fund s));
            ("initial_amount", VNumber (Home.initial s));
            ("monthly_contribution", VNumber (Home.monthly s));
            ("years", VNumber (Home.years s));
            ("annual_fee", VNumber (Home.fee s)) ]
          ++ match Home.simulationType s with
             | deterministic => []
             | monte_carlo => [("n_paths", VNumber (Home.nPaths s))]
             end)
  /\ get (Home.requestBody s) "n_paths"
     = Ok match Home.simulationType s with
          | deterministic => VUndefined
          | monte_carlo => VNumber (Home.nPaths s)
          end
  /\ forall type : SimulationType,
       let s' := Home.setSimulationType type s in
       get (Home.requestBody s') "fund_name" = get (Home.requestBody s) "fund_name"
       /\ get (Home.requestBody s') "initial_amount"
          = get (Home.requestBody s) "initial_amount"
       /\ get (Home.requestBody s') "monthly_contribution"
          = get (Home.requestBody s) "monthly_contribution"
       /\ get (Home.requestBody s') "years" = get (Home.requestBody s) "years"
       /\ get (Home.requestBody s') "annual_fee"
          = get (Home.requestBody s) "annual_fee".
Proof.
  destruct s as [f i m y fe n res t l].
  repeat split; try (destruct t; reflexivity).
  all: destruct t, type; reflexivity.
Qed.

End Builtins.

(** ** The result interface *)

(** C6: the [SimulationResult] interface declares exactly the fields of
    the specification's result structure: the nine figures present in
    every result are required, the trajectory and the Monte Carlo figures
    are optional, and the percentiles and the risk metrics have exactly
    the members the specification lists; the trajectory is an array of
    (month, value) points. *)
Theorem C6_result_fields :
  shape SimulationResult
  = map (fun d => (fst (fst d), is_optional (snd (fst d)), snd d))
        spec_SimulationResult
  /\ field_type SimulationResult "trajectory"
     = Some (TArray (TObject [required "month" TNumber;
                              required "value" TNumber])).
Proof. split; reflexivity. Qed.

Section Rendering.

Context {M : Type}.
Variables mad percent : NumberFormat.

(** ** What the result components display *)

Lemma get_opt_total (v : value) (k : string) : exists x, get_opt v k = Ok x.
Proof.
  unfold get_opt. destruct v; simpl; eauto.
Qed.

Lemma bind_Ok {A B} (m : exc A) (k : A -> exc B) (b : B) :
  bind m k = Ok b -> exists a, m = Ok a /\ k a = Ok b.
Proof. destruct m; cbn; [eauto | discriminate]. Qed.

Ltac bind_inv H :=
  repeat (apply bind_Ok in H; destruct H as (? & _ & H)).

Lemma no_controls_results (result : value) (t : SimulationType) (tree : node M) :
  SimulationResults result t mad percent = Ok tree -> controls tree = [].
Proof.
  unfold SimulationResults, react_child. intros H.
  destruct (negb (truthy result)).
  - injection H as <-. reflexivity.
  - apply bind_Ok in H. destruct H as (category & _ & H).
    destruct (valid_child category); [|discriminate].
    cbn [bind] in H. apply bind_Ok in H. destruct H as (figures & F & H).
    injection H as <-.
    assert (controls figures = []) as E.
    { destruct (SimulationType_eqb t deterministic);
        [unfold DeterministicResults in F | unfold MonteCarloResults in F];
        bind_inv F; injection F as <-; reflexivity. }
    cbn. rewrite E. reflexivity.
Qed.

Lemma no_controls_chart (result : value) (t : SimulationType) (tree : node M) :
  ProjectionChart result t = Ok tree -> controls tree = [].
Proof.
  unfold ProjectionChart. intros H.
  destruct (negb (truthy result) || negb (SimulationType_eqb t deterministic)).
  - injection H as <-. reflexivity.
  - bind_inv H. injection H as <-. reflexivity.
Qed.

Lemma get_field fs k : get (VObject fs) k = Ok (field fs k).
Proof. reflexivity. Qed.

Lemma conforms_field decls fs k opt t :
  conforms (TObject decls) (VObject fs) = true ->
  In (k, opt, t) decls ->
  (field fs k = VUndefined /\ (lookup k fs = None -> opt = true))
  \/ conforms t (field fs k) = true.
Proof.
  intros H Hin. cbn [conforms] in H.
  rewrite forallb_forall in H. specialize (H _ Hin). cbn beta iota in H.
  unfold field. destruct (lookup k fs) as [[]|]; auto.
Qed.

Lemma conforms_number (x : value) : conforms TNumber x = true -> is_number x = true.
Proof. destruct x; cbn; congruence. Qed.

Lemma conforms_object decls (x : value) :
  conforms (TObject decls) x = true -> exists fs, x = VObject fs.
Proof. destruct x; cbn; try discriminate. eauto. Qed.

Lemma plain_convertible (x : value) : plain x -> convertible (or x zero) = true.
Proof.
  intros [-> | N]; [reflexivity|].
  destruct x; try discriminate; unfold or; destruct (truthy _); reflexivity.
Qed.

Lemma figure_plain (f : NumberFormat) (read : exc value) (x : value) :
  read = Ok x -> plain x -> figure f read = Ok (format f (or x zero)).
Proof.
  intros -> P. unfold figure, call_format. cbn [bind].
  rewrite (plain_convertible x P). reflexivity.
Qed.

Lemma toFixed_plain (x : value) :
  plain x -> exists text, call_toFixed (or x zero) 2 = Ok text.
Proof.
  intros [-> | N]; [unfold or, zero; cbn [truthy call_toFixed]; eauto|].
  destruct x; try discriminate; unfold or, zero; destruct (truthy _);
    cbn [call_toFixed]; eauto.
Qed.

Lemma member_plain decls fs outer opt ms k opt' :
  conforms (TObject decls) (VObject fs) = true ->
  In (outer, opt, TObject ms) decls ->
  In (k, opt', TNumber) ms ->
  exists x, get_opt (field fs outer) k = Ok x /\ plain x.
Proof.
  intros H Ho Hk.
  destruct (conforms_field _ _ _ _ _ H Ho) as [[-> _] | C].
  - exists VUndefined. split; [reflexivity | left; reflexivity].
  - destruct (conforms_object _ _ C) as (ps & E). rewrite E in C |- *.
    exists (field ps k). split; [reflexivity|].
    destruct (conforms_field _ _ _ _ _ C Hk) as [[-> _] | N].
    + left; reflexivity.
    + right. apply conforms_number. exact N.
Qed.

Lemma renderable_of decls fs :
  conforms (TObject decls) (VObject fs) = true ->
  (exists o, In ("category", o, TString) decls) ->
  (forall k,
      In k [ "assumed_annual_return"; "net_final_value";
             "net_profit_after_tax"; "tax_paid"; "assumed_annual_vol";
             "prob_loss" ] ->
      exists o, In (k, o, TNumber) decls) ->
  (exists o ms, In ("percentiles", o, TObject ms) decls
                /\ forall k, In k ["p5"; "p50"; "p95"] ->
                     exists o', In (k, o', TNumber) ms) ->
  (exists o ms o', In ("risk_metrics", o, TObject ms) decls
                   /\ In ("sharpe", o', TNumber) ms) ->
  (exists o e, In ("trajectory", o, TArray e) decls) ->
  renderable fs.
Proof.
  intros H (oc & Hc) Hn (op & ms & Hp & Hps) (orm & rs & os & Hr & Hs)
         (ot & e & Ht).
  split; [|split; [|split; [|split]]].
  - destruct (conforms_field _ _ _ _ _ H Hc) as [[-> _] | C]; [reflexivity|].
    destruct (field fs "category"); try discriminate. reflexivity.
  - intros k Hk. destruct (Hn k Hk) as (o & Ho).
    destruct (conforms_field _ _ _ _ _ H Ho) as [[-> _] | C].
    + left; reflexivity.
    + right. apply conforms_number. exact C.
  - intros k Hk. destruct (Hps k Hk) as (o' & Ho').
    exact (member_plain _ _ _ _ _ _ _ H Hp Ho').
  - exact (member_plain _ _ _ _ _ _ _ H Hr Hs).
  - destruct (conforms_field _ _ _ _ _ H Ht) as [[-> _] | C].
    + exists []. split; reflexivity.
    + destruct (field fs "trajectory") as [| | | | | |items|] eqn:E;
        try discriminate.
      exists items. split; [reflexivity | discriminate].
Qed.

Ltac declared := cbn; repeat first [left; reflexivity | right].

Ltac each_declared :=
  let k := fresh in let H := fresh in
  intros k H; cbn in H;
  repeat (destruct H as [<- | H]; [eexists; declared|]); destruct H.

Lemma conforms_renderable (result : value) :
  conforms SimulationResult result = true ->
  exists fs, result = VObject fs /\ renderable fs.
Proof.
  intros H. destruct (conforms_object _ _ H) as (fs & ->).
  exists fs. split; [reflexivity|].
  apply (renderable_of _ _ H).
  - eexists; declared.
  - each_declared.
  - do 2 eexists. split; [declared | each_declared].
  - do 3 eexists. split; declared.
  - do 2 eexists; declared.
Qed.

Lemma partial_renderable (result : value) :
  conforms (partial SimulationResult) result = true ->
  exists fs, result = VObject fs /\ renderable fs.
Proof.
  intros H. destruct (conforms_object _ _ H) as (fs & ->).
  exists fs. split; [reflexivity|].
  apply (renderable_of _ _ H).
  - eexists; declared.
  - each_declared.
  - do 2 eexists. split; [declared | each_declared].
  - do 3 eexists. split; declared.
  - do 2 eexists; declared.
Qed.

(** The trees the two views build from a renderable object. *)
Lemma deterministic_figures fs :
  renderable fs ->
  DeterministicResults (M := M) (VObject fs) mad percent
  = Ok (Elem "div"
          [ card "Assumed annual return"
              (format percent (or (field fs "assumed_annual_return") zero));
            card "Net final value"
              (format mad (or (field fs "net_final_value") zero));
            card "Net profit (after tax)"
              (format mad (or (field fs "net_profit_after_tax") zero));
            card "Tax paid" (format mad (or (field fs "tax_paid") zero)) ]).
Proof.
  intros (_ & N & _). unfold DeterministicResults.
  rewrite !(figure_plain _ _ _ (get_field fs _)) by (apply N; cbn; tauto).
  reflexivity.
Qed.

Lemma read_member_field fs outer inner :
  read_member (VObject fs) outer inner = get_opt (field fs outer) inner.
Proof. reflexivity. Qed.

Lemma monte_carlo_figures fs :
  renderable fs ->
  exists p5 p50 p95 sharpe text,
    read_member (VObject fs) "percentiles" "p5" = Ok p5
    /\ read_member (VObject fs) "percentiles" "p50" = Ok p50
    /\ read_member (VObject fs) "percentiles" "p95" = Ok p95
    /\ read_member (VObject fs) "risk_metrics" "sharpe" = Ok sharpe
    /\ call_toFixed (or sharpe zero) 2 = Ok text
    /\ (sharpe = VUndefined -> text = "0.00")
    /\ MonteCarloResults (M := M) (VObject fs) mad percent
       = Ok (Elem "div"
               [ Elem "div"
                   [ card "Assumed annual return"
                       (format percent
                          (or (field fs "assumed_annual_return") zero));
                     card "Annual volatility"
                       (format percent
                          (or (field fs "assumed_annual_vol") zero)) ];
                 Elem "div"
                   [ Elem "div" [Text "Percentile Outcomes"];
                     Elem "div"
                       [ card "P5 (Worst 5%)" (format mad (or p5 zero));
                         card "P50 (Median)" (format mad (or p50 zero));
                         card "P95 (Best 5%)" (format mad (or p95 zero)) ] ];
                 Elem "div"
                   [ card "Probability of loss"
                       (format percent (or (field fs "prob_loss") zero));
                     card "Sharpe ratio" text ] ]).
Proof.
  intros (_ & N & P & (sharpe & Hs & Ps) & _).
  destruct (P "p5") as (p5 & H5 & P5); [cbn; tauto|].
  destruct (P "p50") as (p50 & H50 & P50); [cbn; tauto|].
  destruct (P "p95") as (p95 & H95 & P95); [cbn; tauto|].
  destruct (toFixed_plain sharpe Ps) as (text & Ht).
  exists p5, p50, p95, sharpe, text.
  rewrite !read_member_field. repeat (split; [assumption|]).
  split.
  - intros ->. vm_compute in Ht. injection Ht as <-. reflexivity.
  - unfold MonteCarloResults.
    rewrite !(figure_plain _ _ _ (get_field fs _)) by (apply N; cbn; tauto).
    cbn [bind].
    rewrite (figure_plain mad _ p5), (figure_plain mad _ p50),
      (figure_plain mad _ p95) by (rewrite ?read_member_field; assumption).
    cbn [bind]. rewrite read_member_field, Hs. cbn [bind]. rewrite Ht.
    reflexivity.
Qed.

Lemma results_of_figures fs (t : SimulationType) (figures : node M) :
  renderable fs ->
  (if SimulationType_eqb t deterministic
   then DeterministicResults (VObject fs) mad percent
   else MonteCarloResults (VObject fs) mad percent) = Ok figures ->
  SimulationResults (VObject fs) t mad percent
  = Ok (Elem "Card"
          [ results_header t;
            Elem "CardContent"
              [Elem "div"
                 [ Elem "div"
                     [ Elem "span" [Text "Category"];
                       Elem "Badge" [Expr (field fs "category")] ];
                   figures ]] ]).
Proof.
  intros (V & _) F. unfold SimulationResults, react_child.
  cbn [truthy negb]. rewrite get_field. cbn [bind]. rewrite V. cbn [bind].
  rewrite F. reflexivity.
Qed.

Lemma chart_of_renderable fs (t : SimulationType) :
  renderable fs ->
  exists (chart : node M) (points : list value),
    ProjectionChart (VObject fs) t = Ok chart
    /\ coalesce (field fs "trajectory") (VArray []) = VArray points
    /\ (field fs "trajectory" = VUndefined -> points = [])
    /\ charts chart = match t with
                      | deterministic => [VArray points]
                      | monte_carlo => []
                      end
    /\ (t = monte_carlo -> chart = Null).
Proof.
  intros (_ & _ & _ & _ & points & E & U).
  destruct t; cbn.
  - eexists _, points. split; [reflexivity|]. split; [exact E|].
    split; [exact U|]. cbn. fold (field fs "trajectory"). rewrite E.
    split; [reflexivity | discriminate].
  - exists Null, points. repeat split; assumption.
Qed.

(** C2: for every result that inhabits the [SimulationResult] interface,
    the projection chart is drawn if and only if the selected simulation
    type is deterministic, and what it draws is the trajectory of the
    result (the empty series when the result has none); each caption of
    the Monte Carlo cards (volatility, percentiles, probability of loss,
    Sharpe ratio) is displayed if and only if the selected type is
    monte-carlo, and each of these cards then displays the formatted
    value of its field of the result.  Under monte-carlo the chart
    component returns null whatever trajectory the result holds, and a
    result without trajectory, as the stochastic mode returns it, has no
    point drawn under either type. *)
Theorem C2_rendered_by_mode (result : value) (simulationType : SimulationType) :
  conforms SimulationResult result = true ->
  exists (chart cards : node M) (trajectory : value) (points : list value),
    ProjectionChart result simulationType = Ok chart
    /\ SimulationResults result simulationType mad percent = Ok cards
    /\ get result "trajectory" = Ok trajectory
    /\ coalesce trajectory (VArray []) = VArray points
    /\ charts chart = match simulationType with
                      | deterministic => [VArray points]
                      | monte_carlo => []
                      end
    /\ (simulationType = monte_carlo -> chart = Null)
    /\ (trajectory = VUndefined ->
        forall type : SimulationType,
        exists drawn : node M,
          ProjectionChart result type = Ok drawn
          /\ (charts drawn = [] \/ charts drawn = [VArray []]))
    /\ (forall caption, In caption monte_carlo_captions ->
          (In (Literal caption) (content cards)
           <-> simulationType = monte_carlo))
    /\ (simulationType = monte_carlo ->
        exists vol p5 p50 p95 prob_loss sharpe text,
          get result "assumed_annual_vol" = Ok vol
          /\ read_member result "percentiles" "p5" = Ok p5
          /\ read_member result "percentiles" "p50" = Ok p50
          /\ read_member result "percentiles" "p95" = Ok p95
          /\ get result "prob_loss" = Ok prob_loss
          /\ read_member result "risk_metrics" "sharpe" = Ok sharpe
          /\ call_toFixed (or sharpe zero) 2 = Ok text
          /\ shows cards [ Literal "Annual volatility";
                           Dynamic (VString (format percent (or vol zero))) ]
          /\ shows cards [ Literal "P5 (Worst 5%)";
                           Dynamic (VString (format mad (or p5 zero))) ]
          /\ shows cards [ Literal "P50 (Median)";
                           Dynamic (VString (format mad (or p50 zero))) ]
          /\ shows cards [ Literal "P95 (Best 5%)";
                           Dynamic (VString (format mad (or p95 zero))) ]
          /\ shows cards [ Literal "Probability of loss";
                           Dynamic
                             (VString (format percent (or prob_loss zero))) ]
          /\ shows cards [Literal "Sharpe ratio"; Dynamic (VString text)]).
Proof.
  intros H. destruct (conforms_renderable _ H) as (fs & -> & R).
  destruct (chart_of_renderable fs simulationType R)
    as (chart & points & C & E & U & D & N).
  assert (exists cards : node M,
             SimulationResults (VObject fs) simulationType mad percent = Ok cards
             /\ (forall caption, In caption monte_carlo_captions ->
                   (In (Literal caption) (content cards)
                    <-> simulationType = monte_carlo))
             /\ (simulationType = monte_carlo ->
                 exists vol p5 p50 p95 prob_loss sharpe text,
                   get (VObject fs) "assumed_annual_vol" = Ok vol
                   /\ read_member (VObject fs) "percentiles" "p5" = Ok p5
                   /\ read_member (VObject fs) "percentiles" "p50" = Ok p50
                   /\ read_member (VObject fs) "percentiles" "p95" = Ok p95
                   /\ get (VObject fs) "prob_loss" = Ok prob_loss
                   /\ read_member (VObject fs) "risk_metrics" "sharpe" = Ok sharpe
                   /\ call_toFixed (or sharpe zero) 2 = Ok text
                   /\ shows cards [ Literal "Annual volatility";
                                    Dynamic (VString (format percent (or vol zero))) ]
                   /\ shows cards [ Literal "P5 (Worst 5%)";
                                    Dynamic (VString (format mad (or p5 zero))) ]
                   /\ shows cards [ Literal "P50 (Median)";
                                    Dynamic (VString (format mad (or p50 zero))) ]
                   /\ shows cards [ Literal "P95 (Best 5%)";
                                    Dynamic (VString (format mad (or p95 zero))) ]
                   /\ shows cards [ Literal "Probability of loss";
                                    Dynamic
                                      (VString (format percent (or prob_loss zero))) ]
                   /\ shows cards [Literal "Sharpe ratio"; Dynamic (VString text)]))
    as (cards & S & Cap & Fig).
  { destruct simulationType.
    - eexists. split.
      + eapply results_of_figures; [exact R|].
        exact (deterministic_figures fs R).
      + split; [|discriminate].
        intros caption Hin. split; [|discriminate].
        cbn in Hin |- *. intros K.
        repeat (destruct Hin as [<- | Hin];
                [repeat (destruct K as [K|K]; [discriminate K|]);
                 exact (False_ind _ K)|]).
        destruct Hin.
    - destruct (monte_carlo_figures fs R)
        as (p5 & p50 & p95 & sharpe & text & H5 & H50 & H95 & Hs & Ht & _ & F).
      eexists. split.
      + exact (results_of_figures fs monte_carlo _ R F).
      + split.
        * intros caption Hin. split; [reflexivity|]. intros _.
          cbn in Hin |- *.
          repeat (destruct Hin as [<- | Hin]; [tauto|]). destruct Hin.
        * intros _.
          exists (field fs "assumed_annual_vol"), p5, p50, p95,
            (field fs "prob_loss"), sharpe, text.
          repeat (split; [first [assumption | reflexivity]|]).
          split; [exists 6%nat; reflexivity|].
          split; [exists 9%nat; reflexivity|].
          split; [exists 11%nat; reflexivity|].
          split; [exists 13%nat; reflexivity|].
          split; [exists 15%nat; reflexivity|].
          exists 17%nat; reflexivity. }
  exists chart, cards, (field fs "trajectory"), points.
  split; [exact C|]. split; [exact S|]. split; [reflexivity|].
  split; [exact E|]. split; [exact D|]. split; [exact N|].
  split; [|split; [exact Cap | exact Fig]].
  intros T type.
  destruct (chart_of_renderable fs type R) as (drawn & pts & C' & _ & U' & D' & _).
  exists drawn. split; [exact C'|]. rewrite D', (U' T).
  destruct type; auto.
Qed.

(** C10 (amended): rendering a result object whose present fields have
    the types the interface declares does not fail, whichever fields are
    missing: the results card and the chart render in either mode, every
    figure whose field reads [undefined] (absent, or absent inside an
    absent [percentiles] or [risk_metrics]) is displayed as the formatted
    number 0, the Sharpe ratio as 0.00, and a result without a
    trajectory is charted with the empty series. *)
Theorem C10_missing_figures_render_as_zero
        (result : value) (simulationType : SimulationType) :
  conforms (partial SimulationResult) result = true ->
  let missing k := get result k = Ok VUndefined in
  let missing_in outer k := read_member result outer k = Ok VUndefined in
  let zero_of (f : NumberFormat) := Dynamic (VString (format f zero)) in
  exists cards chart : node M,
    SimulationResults result simulationType mad percent = Ok cards
    /\ ProjectionChart result simulationType = Ok chart
    /\ (simulationType = deterministic ->
        (missing "assumed_annual_return" ->
         shows cards [Literal "Assumed annual return"; zero_of percent])
        /\ (missing "net_final_value" ->
            shows cards [Literal "Net final value"; zero_of mad])
        /\ (missing "net_profit_after_tax" ->
            shows cards [Literal "Net profit (after tax)"; zero_of mad])
        /\ (missing "tax_paid" ->
            shows cards [Literal "Tax paid"; zero_of mad])
        /\ (missing "trajectory" -> charts chart = [VArray []]))
    /\ (simulationType = monte_carlo ->
        (missing "assumed_annual_return" ->
         shows cards [Literal "Assumed annual return"; zero_of percent])
        /\ (missing "assumed_annual_vol" ->
            shows cards [Literal "Annual volatility"; zero_of percent])
        /\ (missing_in "percentiles" "p5" ->
            shows cards [Literal "P5 (Worst 5%)"; zero_of mad])
        /\ (missing_in "percentiles" "p50" ->
            shows cards [Literal "P50 (Median)"; zero_of mad])
        /\ (missing_in "percentiles" "p95" ->
            shows cards [Literal "P95 (Best 5%)"; zero_of mad])
        /\ (missing "prob_loss" ->
            shows cards [Literal "Probability of loss"; zero_of percent])
        /\ (missing_in "risk_metrics" "sharpe" ->
            shows cards [Literal "Sharpe ratio"; Dynamic (VString "0.00")])).
Proof.
  intros H missing missing_in zero_of. subst missing missing_in zero_of.
  destruct (partial_renderable _ H) as (fs & -> & R).
  destruct (chart_of_renderable fs simulationType R)
    as (chart & points & C & E & U & D & N).
  destruct simulationType.
  - eexists _, chart. split.
    { eapply results_of_figures; [exact R|].
      exact (deterministic_figures fs R). }
    split; [exact C|]. split; [|discriminate]. intros _.
    rewrite !get_field.
    repeat split; intros [= K].
    + exists 4%nat. cbn. rewrite K. reflexivity.
    + exists 6%nat. cbn. rewrite K. reflexivity.
    + exists 8%nat. cbn. rewrite K. reflexivity.
    + exists 10%nat. cbn. rewrite K. reflexivity.
    + rewrite D, (U K). reflexivity.
  - destruct (monte_carlo_figures fs R)
      as (p5 & p50 & p95 & sharpe & text & H5 & H50 & H95 & Hs & Ht & Hz & F).
    eexists _, chart. split.
    { exact (results_of_figures fs monte_carlo _ R F). }
    split; [exact C|]. split; [discriminate|]. intros _.
    rewrite !get_field, H5, H50, H95, Hs.
    repeat split; intros [= K].
    + exists 4%nat. cbn. rewrite K. reflexivity.
    + exists 6%nat. cbn. rewrite K. reflexivity.
    + exists 9%nat. cbn. rewrite K. reflexivity.
    + exists 11%nat. cbn. rewrite K. reflexivity.
    + exists 13%nat. cbn. rewrite K. reflexivity.
    + exists 15%nat. cbn. rewrite K. reflexivity.
    + exists 17%nat. cbn. rewrite (Hz K). reflexivity.
Qed.

End Rendering.

(** ** The page as a machine *)

(** [+v.toFixed(3)] of a number between 0 and 0.05: the binary64 number
    is within [2^(-53)] of [v], so its thousandths round to at most 50. *)
Lemma fee_rounding (v : Q) :
  (0 <= v)%Q -> (v <= 0.05)%Q ->
  exists k : Z, (0 <= k <= 50)%Z /\ numeral_value (toFixed v 3) = (k # 1000)%Q.
Proof.
  intros H0 H1.
  assert (v <= 1)%Q as H2 by lra.
  destruct (nearest_small v H0 H2) as [A B].
  change (pow2 (-52)) with (1 # 4503599627370496)%Q in B.
  unfold toFixed, numeral_value. cbn [negative mantissa digits].
  set (y := nearest v) in *. clearbody y.
  destruct (Qlt_le_dec y 0) as [L | _].
  { exfalso. apply (Qlt_not_le _ _ L A). }
  change (Z.to_pos (pow10 3)) with 1000%positive.
  change (inject_Z (pow10 3)) with 1000%Q.
  assert (Qabs y * 1000 + (1 # 2) == y * 1000 + (1 # 2))%Q as E.
  { rewrite Qabs_pos by assumption. reflexivity. }
  rewrite (Qfloor_comp _ _ E).
  assert (0 <= y * 1000 + (1 # 2))%Q as P by lra.
  assert (y * 1000 + (1 # 2) <= 50 + (3 # 4))%Q as U by lra.
  apply Qfloor_resp_le in P, U.
  change (Qfloor 0) with 0%Z in P. change (Qfloor (50 + (3 # 4))) with 50%Z in U.
  eexists. split; [|reflexivity]. lia.
Qed.

Lemma fee_rounding_in_range (v : Q) :
  (0 <= v)%Q -> (v <= 0.05)%Q ->
  (0 <= numeral_value (toFixed v 3))%Q /\ (numeral_value (toFixed v 3) <= 0.05)%Q.
Proof.
  intros H0 H1. destruct (fee_rounding v H0 H1) as (k & Hk & ->).
  unfold Qle. cbn [Qnum Qden]. lia.
Qed.

Lemma slider_years (v : Q) :
  slider_emits 1 30 1 v ->
  exists k : Z, (1 <= k <= 30)%Z /\ (v == inject_Z k)%Q.
Proof.
  intros [[Hlo Hhi] (k & Hk & E)].
  exists (1 + k)%Z.
  assert (v == inject_Z (1 + k))%Q as E'.
  { rewrite E. rewrite inject_Z_plus. ring. }
  split; [|exact E'].
  rewrite E' in Hlo, Hhi.
  change 1%Q with (inject_Z 1) in Hlo. change 30%Q with (inject_Z 30) in Hhi.
  rewrite <- Zle_Qle in Hlo, Hhi. lia.
Qed.

Section Machine.

Variable JSON_stringify : value -> string.
Variable toLocaleString : Q -> string.
Variable Intl_NumberFormat : string -> list (string * value) -> NumberFormat.

Local Abbreviation render := (Home.render JSON_stringify toLocaleString Intl_NumberFormat).
Local Abbreviation step := (Home.step JSON_stringify toLocaleString Intl_NumberFormat).
Local Abbreviation reach := (Home.reach JSON_stringify toLocaleString Intl_NumberFormat).
Local Abbreviation simulate_call := (Home.simulate_call JSON_stringify).
Local Abbreviation inputs :=
  (fun s => SimulationInputs.render toLocaleString
              (Home.props JSON_stringify Intl_NumberFormat s)).
Local Abbreviation well_behaved := (Home.well_behaved JSON_stringify).

(** The controls of the page are those of the inputs card. *)
Lemma page_controls (s : Home.State) (tree : node Home.handler) :
  render s = Ok tree -> controls tree = controls (inputs s).
Proof.
  unfold Home.render. intros H.
  apply bind_Ok in H. destruct H as (results & R & H).
  apply bind_Ok in H. destruct H as (chart & C & H).
  injection H as <-.
  apply no_controls_results in R. apply no_controls_chart in C.
  cbn [controls flat_map]. rewrite R, C.
  cbn [controls flat_map AppHeader app]. rewrite !app_nil_r. reflexivity.
Qed.

Lemma update_well_behaved (r : Home.State) (f : Home.State -> Home.State) :
  (forall s, Home.valid_inputs s -> Home.valid_inputs (f s)) ->
  well_behaved r (Home.update f).
Proof.
  intros Hf s s' ps E. injection E as <- <-. split; [apply Hf|].
  intros p [].
Qed.

Lemma runSimulation_well_behaved (r : Home.State) :
  well_behaved r (Home.runSimulation JSON_stringify r).
Proof.
  intros s s' ps E. injection E as <- <-. split; [intros V; exact V|].
  intros p [<- | []]. split; [reflexivity|].
  intros [data | e] x V; exact V.
Qed.

Lemma handlers_well_behaved (s : Home.State) (c : control Home.handler)
      (h : Home.handler) :
  In c (controls (inputs s)) -> fires c h -> well_behaved s h.
Proof.
  intros Hin Hf.
  destruct s as [f i m y fe n res t l].
  destruct t, l; cbn in Hin.
  all: repeat (destruct Hin as [<- | Hin]; [|]); try contradiction.
  all: inversion Hf; subst; clear Hf.
  all: try apply runSimulation_well_behaved.
  all: apply update_well_behaved; intros s (Vf & Vy & Vfe & Vn).
  all: split; [|split; [|split]].
  all: try exact Vf; try exact Vy; try exact Vfe; try exact Vn.
  all: try match goal with
           | H : In _ _ |- In _ FUNDS => exact H
           | H : slider_emits _ _ _ ?v |- exists _, _ => exact (slider_years v H)
           | H : slider_emits _ _ _ ?v |- _ =>
               let lo := fresh in let hi := fresh in
               destruct H as [[lo hi] _];
               first [ exact (conj lo hi)
                     | exact (fee_rounding_in_range v lo hi) ]
           end.
Qed.

Lemma machine_invariant (a : Home.App) (sent : list FetchCall) :
  reach a sent ->
  Home.valid_inputs (Home.home a)
  /\ (forall p, In p (Home.pending a) ->
        forall outcome x,
          Home.valid_inputs x -> Home.valid_inputs (Home.resume p outcome x))
  /\ (forall c, In c sent ->
        exists r, c = simulate_call r /\ Home.valid_inputs r).
Proof.
  induction 1 as [| a sent calls a' _ (V & P & S) Hstep].
  - split; [|split].
    + unfold Home.valid_inputs. cbn.
      split; [tauto|]. split; [exists 5%Z; split; [lia|reflexivity]|].
      split; split; unfold Qle; cbn; lia.
    + intros p [].
    + intros c [].
  - destruct Hstep as [a tree c h s' ps R Hin Hf E | a before p after outcome E].
    + rewrite (page_controls _ _ R) in Hin.
      destruct (handlers_well_behaved _ _ _ Hin Hf _ _ _ E) as (V' & P').
      cbn [Home.home Home.pending]. split; [auto|]. split.
      * intros q Hq. apply in_app_or in Hq. destruct Hq as [Hq | Hq].
        -- apply P; exact Hq.
        -- apply P'; exact Hq.
      * intros q Hq. apply in_app_or in Hq. destruct Hq as [Hq | Hq].
        -- apply S; exact Hq.
        -- apply in_map_iff in Hq. destruct Hq as (p & <- & Hp).
           exists (Home.home a). split; [apply P'; exact Hp | exact V].
    + cbn [Home.home Home.pending].
      assert (In p (Home.pending a)) as Hp.
      { rewrite E. apply in_or_app. right. left. reflexivity. }
      split; [apply P; assumption|]. split.
      * intros q Hq. apply P. rewrite E.
        apply in_app_or in Hq. apply in_or_app.
        destruct Hq; [left | right; right]; assumption.
      * intros q Hq. rewrite app_nil_r in Hq. apply S; exact Hq.
Qed.
(** C4: every request the page sends, in any run from its initial state
    through its input controls, is the request of a state whose fund is
    one of the eleven entries of [FUNDS], whose years value is an integer
    between 1 and 30 and whose annual fee lies between 0 and 0.05; the
    body carries these values, and in Monte Carlo mode it carries a path
    count between 1000 and 10000. *)
Theorem C4_requests_within_ranges (a : Home.App) (sent : list FetchCall) :
  reach a sent ->
  forall c, In c sent ->
    exists r : Home.State,
      c = simulate_call r
      /\ List.length FUNDS = 11%nat
      /\ (get (Home.requestBody r) "fund_name" = Ok (VString (Home.fund r))
          /\ In (Home.fund r) FUNDS)
      /\ (get (Home.requestBody r) "years" = Ok (VNumber (Home.years r))
          /\ exists k : Z, (1 <= k <= 30)%Z /\ (Home.years r == inject_Z k)%Q)
      /\ (get (Home.requestBody r) "annual_fee" = Ok (VNumber (Home.fee r))
          /\ (0 <= Home.fee r)%Q /\ (Home.fee r <= 0.05)%Q)
      /\ (Home.simulationType r = monte_carlo ->
          get (Home.requestBody r) "n_paths" = Ok (VNumber (Home.nPaths r))
          /\ (1000 <= Home.nPaths r)%Q /\ (Home.nPaths r <= 10000)%Q).
Proof.
  intros R c Hc.
  destruct (machine_invariant a sent R) as (_ & _ & S).
  destruct (S c Hc) as (r & -> & Vf & Vy & Vfe & Vn).
  exists r. split; [reflexivity|]. split; [reflexivity|].
  destruct r as [f i m y fe n res t l].
  split; [split; [destruct t; reflexivity | exact Vf]|].
  split; [split; [destruct t; reflexivity | exact Vy]|].
  split; [split; [destruct t; reflexivity | exact Vfe]|].
  intros E. cbn in E. subst t. split; [reflexivity | exact Vn].
Qed.

(** The switch itself: it stores the type, resets the result to null,
    sends nothing and leaves every input as it is; the render that
    follows shows the placeholder and no chart. *)
Lemma handleSimulationTypeChange_frame (type : SimulationType) (s : Home.State) :
  let s' := fst (Home.handleSimulationTypeChange type s) in
  snd (Home.handleSimulationTypeChange type s) = []
  /\ Home.simulationType s' = type
  /\ Home.result s' = VNull
  /\ Home.fund s' = Home.fund s
  /\ Home.initial s' = Home.initial s
  /\ Home.monthly s' = Home.monthly s
  /\ Home.years s' = Home.years s
  /\ Home.fee s' = Home.fee s
  /\ Home.nPaths s' = Home.nPaths s
  /\ Home.loading s' = Home.loading s
  /\ (exists tree, render s' = Ok tree /\ charts tree = []
                   /\ In (Literal "Run a simulation to see projected outcomes.")
                        (content tree)).
Proof.
  destruct s as [f i m y fe n res t l], type.
  all: repeat (split; [reflexivity|]).
  all: eexists; split; [reflexivity|]; split; [reflexivity|].
  all: destruct l; cbn; tauto.
Qed.

(** Building runs of the page, one event at a time. *)
Lemma step_of_event (a : Home.App) (c : control Home.handler)
      (h : Home.handler) (tree : node Home.handler) :
  render (Home.home a) = Ok tree ->
  In c (controls tree) ->
  fires c h ->
  step a (map Home.call (snd (h (Home.home a))))
       {| Home.home := fst (h (Home.home a));
          Home.pending := Home.pending a ++ snd (h (Home.home a)) |}.
Proof.
  intros T Hin Hf. eapply Home.step_event; eauto. apply surjective_pairing.
Qed.

Lemma reach_event (a : Home.App) (sent : list FetchCall)
      (c : control Home.handler) (h : Home.handler) (tree : node Home.handler) :
  reach a sent ->
  render (Home.home a) = Ok tree ->
  In c (controls tree) ->
  fires c h ->
  reach {| Home.home := fst (h (Home.home a));
           Home.pending := Home.pending a ++ snd (h (Home.home a)) |}
        (sent ++ map Home.call (snd (h (Home.home a)))).
Proof.
  intros R T Hin Hf. eapply Home.reach_step; [exact R|].
  eapply step_of_event; eauto.
Qed.

Lemma reach_settle (a : Home.App) (sent : list FetchCall)
      (p : Home.Pending) (rest : list Home.Pending) (outcome : exc value) :
  reach a sent ->
  Home.pending a = p :: rest ->
  reach {| Home.home := Home.resume p outcome (Home.home a);
           Home.pending := rest |} sent.
Proof.
  intros R E. rewrite <- (app_nil_r sent).
  eapply Home.reach_step; [exact R|].
  exact (Home.step_settle _ _ _ a [] p rest outcome E).
Qed.

(** C9: the code at the failing run.  The user selects MC Simulation,
    runs the simulation, and switches back to Deterministic while the
    request to /api/mc-simulate is in flight; the switch resets the
    stored result, but the response that arrives afterwards is stored
    unconditionally.  The page is then in deterministic mode holding the
    Monte Carlo result: it renders the deterministic cards from it and
    draws the chart, with an empty series. *)
Theorem C9_result_of_previous_mode_rendered :
  let monte_carlo_page := Home.setSimulationType monte_carlo Home.initial_state in
  exists a : Home.App,
    reach a [simulate_call monte_carlo_page]
    /\ url (simulate_call monte_carlo_page) = "/api/mc-simulate"
    /\ Home.simulationType (Home.home a) = deterministic
    /\ Home.result (Home.home a) = Sample.mc_result
    /\ exists tree,
         render (Home.home a) = Ok tree
         /\ shows tree
              [ Literal "Net final value";
                Dynamic (VString (format (Home.mad Intl_NumberFormat)
                                    (VNumber 325000))) ]
         /\ charts tree = [VArray []].
Proof.
  intros monte_carlo_page.
  (* the user selects MC Simulation *)
  pose proof (Home.reach_start JSON_stringify toLocaleString Intl_NumberFormat) as R0.
  eapply (reach_event _ _ (OnClick (Home.handleSimulationTypeChange monte_carlo)))
    in R0; [| reflexivity | do 6 right; left; reflexivity | constructor].
  (* runs the simulation: the request leaves *)
  eapply (reach_event _ _ (OnClick (Home.runSimulation JSON_stringify monte_carlo_page)))
    in R0; [| reflexivity | do 8 right; left; reflexivity | constructor].
  (* switches back to Deterministic while it is in flight *)
  eapply (reach_event _ _ (OnClick (Home.handleSimulationTypeChange deterministic)))
    in R0; [| reflexivity | do 6 right; left; reflexivity | constructor].
  (* the Monte Carlo response arrives *)
  eapply (reach_settle _ _ _ [] (Ok Sample.mc_result)) in R0; [| reflexivity].
  eexists. split; [exact R0|].
  split; [reflexivity|]. split; [reflexivity|]. split; [reflexivity|].
  eexists. split; [reflexivity|]. split; [|reflexivity].
  exists 42%nat. reflexivity.
Qed.


End Machine.

(** ** The percentile report *)

Section Percentiles.

Import Engine.

Lemma insert_sorted (x : Q) (l : list Q) :
  StronglySorted Qle l -> StronglySorted Qle (insert x l).
Proof.
  induction 1 as [| y l S IH F]; cbn.
  - constructor; constructor.
  - destruct (Qle_bool x y) eqn:E.
    + apply Qle_bool_iff in E. constructor.
      * constructor; assumption.
      * constructor; [exact E|].
        eapply Forall_impl; [|exact F]. intros z Hz. eapply Qle_trans; eauto.
    + assert (y <= x)%Q as L.
      { destruct (Qlt_le_dec y x) as [L | L]; [apply Qlt_le_weak; exact L|].
        apply Qle_bool_iff in L. congruence. }
      constructor; [exact IH|].
      clear IH S E. induction F as [| z l Hz F IHF]; cbn.
      * constructor; [exact L | constructor].
      * destruct (Qle_bool x z); constructor; auto.
Qed.

Lemma sort_sorted (l : list Q) : StronglySorted Qle (sort l).
Proof.
  induction l as [| x l IH]; cbn; [constructor | apply insert_sorted; exact IH].
Qed.

Lemma sorted_nth (l : list Q) :
  StronglySorted Qle l ->
  forall i j d, (i <= j < List.length l)%nat -> (nth i l d <= nth j l d)%Q.
Proof.
  induction 1 as [| x l S IH F]; intros i j d [Hij Hj]; cbn in Hj; [lia|].
  destruct i as [| i], j as [| j]; cbn; try lia.
  - apply Qle_refl.
  - rewrite Forall_forall in F. apply F. apply nth_In. lia.
  - apply IH. lia.
Qed.

(** The value interpolated at a position lies between its two
    neighbours. *)
Lemma interpolate_between (l : list Q) (rank : Q) :
  StronglySorted Qle l ->
  (0 <= rank)%Q ->
  let lo := Z.to_nat (Qfloor rank) in
  let a := nth lo l 0%Q in
  let b := nth (S lo) l a in
  (a <= b)%Q /\ (a <= interpolate l rank)%Q /\ (interpolate l rank <= b)%Q.
Proof.
  intros S H lo a b.
  assert (a <= b)%Q as Hab.
  { subst a b. destruct (Nat.lt_ge_cases (Datatypes.S lo) (List.length l)) as [L | L].
    - rewrite (nth_indep l _ 0%Q L). apply sorted_nth; [exact S | lia].
    - rewrite (nth_overflow l _ L). apply Qle_refl. }
  pose proof (Qfloor_le rank) as F0. pose proof (Qlt_floor rank) as F1.
  rewrite inject_Z_plus in F1. change (inject_Z 1) with 1%Q in F1.
  unfold interpolate. fold lo. fold a. fold b.
  set (frac := (rank - inject_Z (Qfloor rank))%Q).
  assert (0 <= frac)%Q as G0 by (subst frac; lra).
  assert (frac <= 1)%Q as G1 by (subst frac; lra).
  assert (0 <= b - a)%Q as D by lra.
  pose proof (Qmult_le_0_compat _ _ G0 D) as M0.
  assert (frac * (b - a) <= 1 * (b - a))%Q as M1
      by (apply Qmult_le_compat_r; assumption).
  repeat split; lra.
Qed.

Lemma interpolate_monotone (l : list Q) (r1 r2 : Q) :
  StronglySorted Qle l ->
  (0 <= r1)%Q -> (r1 <= r2)%Q ->
  (r2 <= inject_Z (Z.of_nat (List.length l) - 1))%Q ->
  (interpolate l r1 <= interpolate l r2)%Q.
Proof.
  intros S H0 H12 Hn.
  assert (0 <= r2)%Q as H2 by lra.
  destruct (interpolate_between l r1 S H0) as (A1 & L1 & U1).
  destruct (interpolate_between l r2 S H2) as (A2 & L2 & U2).
  pose proof (Qfloor_resp_le _ _ H12) as F12.
  pose proof (Qfloor_resp_le _ _ H0) as F0. change (Qfloor 0) with 0%Z in F0.
  pose proof (Qfloor_resp_le _ _ Hn) as Fn. rewrite Qfloor_Z in Fn.
  destruct (Z.eq_dec (Qfloor r1) (Qfloor r2)) as [E | N].
  - unfold interpolate in *. rewrite <- E in *.
    set (a := nth (Z.to_nat (Qfloor r1)) l 0%Q) in *.
    set (b := nth (Datatypes.S (Z.to_nat (Qfloor r1))) l a) in *.
    assert ((r1 - inject_Z (Qfloor r1)) * (b - a)
            <= (r2 - inject_Z (Qfloor r1)) * (b - a))%Q as M.
    { apply Qmult_le_compat_r; lra. }
    lra.
  - eapply Qle_trans; [exact U1|]. eapply Qle_trans; [|exact L2].
    rewrite (nth_indep l _ 0%Q) by lia.
    apply sorted_nth; [exact S | lia].
Qed.

(** C7: whatever post-tax net final values the paths of a Monte Carlo
    request end with, the reported percentiles are in order:
    p5 <= p50 <= p95. *)
Theorem C7_percentiles_ordered (net_final_values : list Q) :
  (p5 (percentiles net_final_values) <= p50 (percentiles net_final_values))%Q
  /\ (p50 (percentiles net_final_values) <= p95 (percentiles net_final_values))%Q.
Proof.
  unfold percentiles, percentile. cbn [p5 p50 p95].
  pose proof (sort_sorted net_final_values) as S.
  set (l := sort net_final_values) in *.
  destruct (Nat.eq_dec (List.length l) 0) as [E | E].
  - apply length_zero_iff_nil in E. rewrite E.
    unfold interpolate. cbn. split; unfold Qle; cbn; lia.
  - assert (0 <= inject_Z (Z.of_nat (List.length l) - 1))%Q as N.
    { change 0%Q with (inject_Z 0). rewrite <- Zle_Qle. lia. }
    set (top := inject_Z (Z.of_nat (List.length l) - 1)) in *.
    change (5 / 100)%Q with (5 # 100)%Q.
    change (50 / 100)%Q with (50 # 100)%Q.
    change (95 / 100)%Q with (95 # 100)%Q.
    split; apply interpolate_monotone; try exact S; fold top; clearbody top; lra.
Qed.

End Percentiles.

(** ** The proxy route *)

Section Proxy.

Variable JSON_parse : string -> option value.
Variable JSON_stringify : value -> string.
Variable fetch : string -> RequestInit -> exc Route.Response.

Local Abbreviation json := (Route.json JSON_parse).
Local Abbreviation forwarded := (Route.forwarded JSON_stringify).
Local Abbreviation NextResponse_json := (Route.NextResponse_json JSON_stringify).
Local Abbreviation POST := (Route.POST JSON_parse JSON_stringify).

(** C8 (amended): the route passes on JSON values, serialized anew, not
    texts.  When the request body decodes to [received] and the back end
    answers the forwarded request with a body that decodes to [data], the
    route has sent one POST to http://localhost:8000/mc-simulate with the
    JSON headers and the body [JSON.stringify(received)] (it consults the
    network for nothing else), and it answers 200 with the body
    [JSON.stringify(data)]. *)
Theorem C8_route_reserializes_json
        (req : Route.Request) (received : value)
        (res : Route.Response) (data : value) :
  json (Route.request_body req) = Ok received ->
  fetch Route.backend (forwarded received) = Ok res ->
  json (Route.response_body res) = Ok data ->
  POST fetch req = Ok (NextResponse_json data)
  /\ Route.backend = "http://localhost:8000/mc-simulate"
  /\ forwarded received
     = {| method := "POST";
          headers := [("Content-Type", "application/json")];
          body := JSON_stringify received |}
  /\ NextResponse_json data
     = {| Route.status := 200;
          Route.content_type := "application/json";
          Route.response_body := JSON_stringify data |}
  /\ forall network : string -> RequestInit -> exc Route.Response,
       network Route.backend (forwarded received)
       = fetch Route.backend (forwarded received) ->
       POST network req = POST fetch req.
Proof.
  intros Hreq Hres Hdata.
  assert (POST fetch req = Ok (NextResponse_json data)) as E.
  { unfold Route.POST. rewrite Hreq. cbn [bind]. rewrite Hres. cbn [bind].
    rewrite Hdata. reflexivity. }
  split; [exact E|]. repeat (split; [reflexivity|]).
  intros network N. rewrite E.
  unfold Route.POST. rewrite Hreq. cbn [bind]. rewrite N, Hres. cbn [bind].
  rewrite Hdata. reflexivity.
Qed.

End Proxy.

(** ** The boundary of the engine *)

Section Validation.

Variables Fund Result : Type.
Variable lookup : string -> option Fund.
Variable engine : Fund -> Boundary.SimulationRequest -> Result.

(** C5: a request with a negative initial amount or a negative monthly
    contribution is rejected as InvalidParameter, whatever its other
    fields and whether or not its fund is known; the engine is not
    invoked (the outcome is the same for every engine), and nothing is
    clamped: the engine only ever runs on requests whose amounts are not
    negative, and on the request as it was received. *)
Theorem C5_negative_amounts_rejected (r : Boundary.SimulationRequest) :
  (Boundary.initial_amount r < 0 \/ Boundary.monthly_contribution r < 0)%Q ->
  Boundary.simulate lookup engine r = inl Boundary.InvalidParameter
  /\ (forall other : Fund -> Boundary.SimulationRequest -> Result,
        Boundary.simulate lookup other r = inl Boundary.InvalidParameter)
  /\ (forall (accepted : Boundary.SimulationRequest) (result : Result),
        Boundary.simulate lookup engine accepted = inr result ->
        (0 <= Boundary.initial_amount accepted)%Q
        /\ (0 <= Boundary.monthly_contribution accepted)%Q
        /\ exists f, lookup (Boundary.fund accepted) = Some f
                     /\ result = engine f accepted).
Proof.
  intros N.
  assert (Boundary.in_domain r = false) as D.
  { unfold Boundary.in_domain.
    destruct (Qle_bool 0 (Boundary.initial_amount r)) eqn:I; [|reflexivity].
    destruct (Qle_bool 0 (Boundary.monthly_contribution r)) eqn:C; [|reflexivity].
    apply Qle_bool_iff in I, C. exfalso. destruct N as [N | N]; lra. }
  split; [|split].
  - unfold Boundary.simulate. rewrite D. reflexivity.
  - intros other. unfold Boundary.simulate. rewrite D. reflexivity.
  - intros accepted result. unfold Boundary.simulate, Boundary.in_domain.
    destruct (Qle_bool 0 (Boundary.initial_amount accepted)) eqn:I;
      [|discriminate].
    destruct (Qle_bool 0 (Boundary.monthly_contribution accepted)) eqn:C;
      [|discriminate].
    apply Qle_bool_iff in I, C. cbn [andb].
    destruct (_ && _ && _); [|discriminate].
    destruct (lookup (Boundary.fund accepted)) as [f|]; [|discriminate].
    intros [= <-]. split; [exact I|]. split; [exact C|]. eauto.
Qed.

End Validation.

(** ** The model on concrete inputs *)

Section Examples.

Local Abbreviation reach :=
  (Home.reach Sample.JSON_stringify Sample.toLocaleString Sample.Intl_NumberFormat).
Local Abbreviation step :=
  (Home.step Sample.JSON_stringify Sample.toLocaleString Sample.Intl_NumberFormat).
Local Abbreviation render :=
  (Home.render Sample.JSON_stringify Sample.toLocaleString Sample.Intl_NumberFormat).
Local Abbreviation simulate_call := (Home.simulate_call Sample.JSON_stringify).
Local Abbreviation sample_mad := (Sample.Intl_NumberFormat "en-MA" []).
Local Abbreviation sample_percent := (Sample.Intl_NumberFormat "en-US" []).

(** The page after the user typed -1 into the initial amount. *)
Lemma negative_initial_reached : reach Sample.negative_initial [].
Proof.
  exact (reach_event _ _ _ Home.start []
           (OnInput (fun value => Home.update (Home.setInitial (to_number value))))
           _ _
           (Home.reach_start _ _ _) eq_refl
           (or_intror (or_introl eq_refl))
           (fires_input _ (Numeric (-1)))).
Qed.

(** With the initial amount -1 the page is not stopped: the Run button
    sends the request, whose body carries [initial_amount] -1. *)
Lemma negative_initial_is_sent :
  reach Sample.negative_initial []
  /\ (Home.initial (Home.home Sample.negative_initial) < 0)%Q
  /\ get (Home.requestBody (Home.home Sample.negative_initial)) "initial_amount"
     = Ok (VNumber (-1))
  /\ exists after : Home.App,
       step Sample.negative_initial
         [simulate_call (Home.home Sample.negative_initial)] after.
Proof.
  split; [exact negative_initial_reached|].
  split; [reflexivity|]. split; [reflexivity|].
  eexists.
  refine (step_of_event _ _ _ Sample.negative_initial
            (OnClick (Home.runSimulation Sample.JSON_stringify
                        (Home.home Sample.negative_initial)))
            _ _ eq_refl _ (fires_click _)).
  do 7 right; left; reflexivity.
Qed.

(** C5 at a request with the initial amount -1, for a catalog that knows
    its fund. *)
Lemma C5_witness_negative_initial :
  (Boundary.initial_amount Sample.negative_request < 0)%Q
  /\ Sample.any_fund (Boundary.fund Sample.negative_request)
     = Some "ATTIJARI ACTIONS"
  /\ Boundary.simulate Sample.any_fund Sample.echo_engine Sample.negative_request
     = inl Boundary.InvalidParameter.
Proof.
  split; [reflexivity|]. split; [reflexivity|].
  exact (proj1 (C5_negative_amounts_rejected _ _
                  Sample.any_fund Sample.echo_engine Sample.negative_request
                  (or_introl eq_refl))).
Defined.

(** C8, as stated, fails: a request body with a number beyond the
    binary64 range is decoded to Infinity, which is serialized as null;
    the back end receives the member [x] rewritten to null, and so does
    the client in the answer of a back end that echoes its input. *)
Lemma C8_overflowing_number_becomes_null :
  Route.json JSON.parse Sample.overflowing_text
  = Ok (VObject [("x", VNonFinite PlusInfinity)])
  /\ body (Route.forwarded JSON.stringify
             (VObject [("x", VNonFinite PlusInfinity)]))
     = Sample.nulled_text
  /\ Route.json JSON.parse Sample.nulled_text = Ok (VObject [("x", VNull)])
  /\ Route.POST JSON.parse JSON.stringify Sample.echo_backend
       {| Route.request_body := Sample.overflowing_text |}
     = Ok {| Route.status := 200;
             Route.content_type := "application/json";
             Route.response_body := Sample.nulled_text |}
  /\ Sample.nulled_text <> Sample.overflowing_text.
Proof.
  split; [vm_compute; reflexivity|].
  split; [vm_compute; reflexivity|].
  split; [vm_compute; reflexivity|].
  split; [vm_compute; reflexivity|].
  vm_compute. discriminate.
Qed.

(** Other members the route rewrites: a whole number beyond [2^53] is
    rounded, and of a repeated key only the last value is kept. *)
Example route_rewrites_members :
  JSON.stringify (Sample.decoded "[9007199254740993, 0.10000000000000000001]")
  = "[9007199254740992,0.1]"
  /\ JSON.stringify
       (Sample.decoded
          ("{" ++ JSON.quote "a" ++ ":1," ++ JSON.quote "a" ++ ":2}")%string)
     = ("{" ++ JSON.quote "a" ++ ":2}")%string
  /\ JSON.stringify
       (Sample.decoded
          ("{" ++ JSON.quote "b" ++ ":1," ++ JSON.quote "10" ++ ":2,"
           ++ JSON.quote "9" ++ ":3}")%string)
     = ("{" ++ JSON.quote "9" ++ ":3," ++ JSON.quote "10" ++ ":2,"
        ++ JSON.quote "b" ++ ":1}")%string.
Proof. repeat split; vm_compute; reflexivity. Qed.

(** C8 (amended) between the page's Monte Carlo request and a back end
    that answers the sample result: the request reaches the back end as
    the page wrote it, and the answer carries the result. *)
Lemma C8_witness_page_request :
  let text := body (init (simulate_call Sample.monte_carlo_page)) in
  Route.POST JSON.parse JSON.stringify Sample.mc_backend
    {| Route.request_body := text |}
  = Ok {| Route.status := 200;
          Route.content_type := "application/json";
          Route.response_body := Sample.mc_text |}
  /\ body (Route.forwarded JSON.stringify (Sample.decoded text)) = text.
Proof.
  intros text.
  assert (Route.json JSON.parse text = Ok (Sample.decoded text)) as Hreq
      by (vm_compute; reflexivity).
  assert (Route.json JSON.parse Sample.mc_text = Ok (Sample.decoded Sample.mc_text))
    as Hdata by (vm_compute; reflexivity).
  destruct (C8_route_reserializes_json JSON.parse JSON.stringify Sample.mc_backend
              {| Route.request_body := text |} (Sample.decoded text)
              {| Route.status := 200;
                 Route.content_type := "application/json";
                 Route.response_body := Sample.mc_text |}
              (Sample.decoded Sample.mc_text) Hreq eq_refl Hdata)
    as (E & _).
  split; [|vm_compute; reflexivity].
  rewrite E. vm_compute. reflexivity.
Defined.

(** C2 at the sample Monte Carlo result under the monte-carlo type: no
    chart, and the median card shows the result's median. *)
Lemma C2_witness_sample_result :
  conforms SimulationResult Sample.mc_result = true
  /\ ProjectionChart (M := Home.handler) Sample.mc_result monte_carlo = Ok Null
  /\ exists cards : node Home.handler,
       SimulationResults Sample.mc_result monte_carlo sample_mad sample_percent
       = Ok cards
       /\ shows cards [Literal "P50 (Median)"; Dynamic (VString "320000.00")].
Proof.
  split; [reflexivity|].
  destruct (C2_rendered_by_mode (M := Home.handler) sample_mad sample_percent
              Sample.mc_result monte_carlo eq_refl)
    as (chart & cards & trajectory & points & C & S & _ & _ & _ & N & _ & _ & F).
  rewrite (N eq_refl) in C. split; [exact C|].
  exists cards. split; [exact S|].
  destruct (F eq_refl)
    as (vol & p5 & p50 & p95 & loss & sharpe & text & _ & _ & H50 & _ & _ & _
        & _ & _ & _ & K & _).
  injection H50 as <-. exact K.
Defined.

(** C2 at a deterministic result with a trajectory of two points: the
    chart draws them. *)
Example deterministic_result_is_charted :
  let points :=
    [ VObject [("month", VNumber 1); ("value", VNumber 103000)];
      VObject [("month", VNumber 2); ("value", VNumber 106100)] ] in
  exists chart : node Home.handler,
    ProjectionChart
      (VObject [("category", VString "Actions"); ("trajectory", VArray points)])
      deterministic
    = Ok chart
    /\ charts chart = [VArray points].
Proof. eexists. split; reflexivity. Qed.

(** The first request of a fresh page, sent by the Run button. *)
Lemma first_request_reached :
  reach {| Home.home := Home.setLoading true Home.initial_state;
           Home.pending :=
             snd (Home.runSimulation Sample.JSON_stringify
                    Home.initial_state Home.initial_state) |}
        [simulate_call Home.initial_state].
Proof.
  exact (reach_event _ _ _ Home.start []
           (OnClick (Home.runSimulation Sample.JSON_stringify Home.initial_state))
           _ _
           (Home.reach_start _ _ _) eq_refl
           (or_intror (or_intror (or_intror (or_intror (or_intror
              (or_intror (or_intror (or_introl eq_refl))))))))
           (fires_click _)).
Qed.

(** C4 at the first request of a fresh page. *)
Lemma C4_witness_first_request :
  exists r : Home.State,
    simulate_call Home.initial_state = simulate_call r
    /\ List.length FUNDS = 11%nat
    /\ (get (Home.requestBody r) "fund_name" = Ok (VString (Home.fund r))
        /\ In (Home.fund r) FUNDS)
    /\ (get (Home.requestBody r) "years" = Ok (VNumber (Home.years r))
        /\ exists k : Z, (1 <= k <= 30)%Z /\ (Home.years r == inject_Z k)%Q)
    /\ (get (Home.requestBody r) "annual_fee" = Ok (VNumber (Home.fee r))
        /\ (0 <= Home.fee r)%Q /\ (Home.fee r <= 0.05)%Q)
    /\ (Home.simulationType r = monte_carlo ->
        get (Home.requestBody r) "n_paths" = Ok (VNumber (Home.nPaths r))
        /\ (1000 <= Home.nPaths r)%Q /\ (Home.nPaths r <= 10000)%Q).
Proof.
  exact (C4_requests_within_ranges
           Sample.JSON_stringify Sample.toLocaleString Sample.Intl_NumberFormat
           _ _ first_request_reached
           (simulate_call Home.initial_state) (or_introl eq_refl)).
Defined.

(** C10, as stated, fails: a result object whose Sharpe ratio is a string
    makes the Monte Carlo card, and with it the page, throw a TypeError
    ([toFixed] is not a function), although its probability of loss is
    merely missing; and so does, in deterministic mode, a net final value
    that is an object with a [toString] member, which [format] cannot
    convert. *)
Lemma C10_non_numeric_figure_throws :
  get Sample.text_sharpe "prob_loss" = Ok VUndefined
  /\ SimulationResults (M := Home.handler) Sample.text_sharpe monte_carlo
       sample_mad sample_percent
     = Throw TypeError
  /\ render (Sample.page_showing Sample.text_sharpe monte_carlo)
     = Throw TypeError
  /\ get Sample.object_figure "tax_paid" = Ok VUndefined
  /\ SimulationResults (M := Home.handler) Sample.object_figure deterministic
       sample_mad sample_percent
     = Throw TypeError
  /\ render (Sample.page_showing Sample.object_figure deterministic)
     = Throw TypeError.
Proof. repeat split. Qed.

(** C10 (amended) at a result with nothing but its category: the figure
    reads 0 and the chart is empty. *)
Lemma C10_witness_bare_result :
  conforms (partial SimulationResult) (VObject [("category", VString "Actions")])
  = true
  /\ exists cards chart : node Home.handler,
       SimulationResults (VObject [("category", VString "Actions")])
         deterministic sample_mad sample_percent
       = Ok cards
       /\ ProjectionChart (VObject [("category", VString "Actions")]) deterministic
          = Ok chart
       /\ shows cards [Literal "Net final value"; Dynamic (VString "0.00")]
       /\ charts chart = [VArray []].
Proof.
  split; [reflexivity|].
  destruct (C10_missing_figures_render_as_zero (M := Home.handler)
              sample_mad sample_percent
              (VObject [("category", VString "Actions")]) deterministic eq_refl)
    as (cards & chart & S & C & D & _).
  exists cards, chart. split; [exact S|]. split; [exact C|].
  destruct (D eq_refl) as (_ & net & _ & _ & empty).
  split; [exact (net eq_refl) | exact (empty eq_refl)].
Defined.

(** The total contributed with amounts that binary64 does not hold
    exactly: [0.1 + 0.7 * 1 * 12] is 8.499999999999998; and with amounts
    near the top of the range the product overflows. *)
Example total_contributed_is_rounded :
  let s := Home.setYears 1 (Home.setMonthly 0.7 (Home.setInitial 0.1
             Home.initial_state)) in
  Home.totalContributed s = Finite (4785074604081151 # 562949953421312)
  /\ number_string (4785074604081151 # 562949953421312)
     = "8.499999999999998".
Proof. split; vm_compute; reflexivity. Qed.

(** The primitive floats of the machine give the same numbers. *)
Example binary64_agrees_with_the_hardware :
  forallb
    (fun nd =>
       match Hardware.rational (Hardware.quotient (fst nd) (snd nd)) with
       | Some q => Qeq_bool q (nearest (fst nd # Z.to_pos (snd nd)))
       | None => false
       end)
    [ (1, 10); (7, 10); (18, 1000); (5, 100); (1005, 1000); (185, 10000);
      (1, 3); (2, 3); (123456789, 1000); (9007199254740991, 7);
      (1, 4503599627370495) ]%Z
  = true
  /\ Hardware.rational
       (PrimFloat.add (Hardware.quotient 1 10)
          (PrimFloat.mul
             (PrimFloat.mul (Hardware.quotient 7 10) (Hardware.of_Z 1))
             (Hardware.of_Z 12)))
     = Some (4785074604081151 # 562949953421312).
Proof. split; vm_compute; reflexivity. Qed.

Example total_contributed_overflows :
  let s := Home.setYears 1 (Home.setMonthly 1e308 (Home.setInitial 1e308
             Home.initial_state)) in
  Home.totalContributed s = NonFinite PlusInfinity.
Proof. vm_compute. reflexivity. Qed.

(** Rounding as [toFixed] does it: the binary64 number nearest to 1.005
    lies below it, as the one nearest to 0.0185 does, and -0.125 is a tie;
    and the percentiles of five paths. *)
Example toFixed_rounds_the_binary64_number :
  numeral_string (toFixed 1.005 2) = "1.00"
  /\ numeral_string (toFixed (-0.125) 2) = "-0.13"
  /\ numeral_string (toFixed (-0.004) 2) = "-0.00"
  /\ (numeral_value (toFixed 0.0185 3) == 0.018)%Q
  /\ (numeral_value (toFixed 0.0175 3) == 0.018)%Q.
Proof. repeat split. Qed.

Example percentiles_of_five_paths :
  let p := Engine.percentiles [3; 1; 2; 10; 7]%Q in
  (Engine.p5 p == 1.2)%Q /\ (Engine.p50 p == 3)%Q /\ (Engine.p95 p == 9.4)%Q.
Proof. repeat split. Qed.

End Examples.
(* ================================================================== *)
(** * Further properties of the page                                  *)
(* ================================================================== *)

Section Page.

Variable JSON_stringify : value -> string.
Variable toLocaleString : Q -> string.
Variable Intl_NumberFormat : string -> list (string * value) -> NumberFormat.

Local Abbreviation render := (Home.render JSON_stringify toLocaleString Intl_NumberFormat).
Local Abbreviation step := (Home.step JSON_stringify toLocaleString Intl_NumberFormat).
Local Abbreviation reach := (Home.reach JSON_stringify toLocaleString Intl_NumberFormat).
Local Abbreviation simulate_call := (Home.simulate_call JSON_stringify).
Local Abbreviation runSimulation := (Home.runSimulation JSON_stringify).
Local Abbreviation effect := (Home.effect JSON_stringify).
Local Abbreviation inputs :=
  (fun s => SimulationInputs.render toLocaleString
              (Home.props JSON_stringify Intl_NumberFormat s)).

(** ** The events of the inputs card *)

Ltac pick_control := cbn; repeat first [left; reflexivity | right].

Lemma event_has_effect (s : Home.State) (c : control Home.handler)
      (h : Home.handler) :
  In c (controls (inputs s)) -> fires c h -> effect s (h s).
Proof.
  intros Hin Hf.
  destruct s as [f i m y fe n res t l].
  destruct t, l; cbn in Hin.
  all: repeat (destruct Hin as [<- | Hin]; [|]); try contradiction.
  all: inversion Hf; subst; clear Hf.
  all: first [ apply Home.effect_fund; assumption
             | apply Home.effect_initial
             | apply Home.effect_monthly
             | apply Home.effect_years; assumption
             | apply Home.effect_fee; assumption
             | apply Home.effect_nPaths; [reflexivity | assumption]
             | apply Home.effect_type
             | apply Home.effect_run; reflexivity ].
Qed.

Lemma effect_has_event (s : Home.State) (out : Home.State * list Home.Pending) :
  effect s out ->
  exists c h, In c (controls (inputs s)) /\ fires c h /\ h s = out.
Proof.
  intros E. destruct s as [f i m y fe n res t l].
  destruct E as [v Hv | text | text | v Hv | v Hv | v Ht Hv | type | Hl].
  - exists (OnSelect FUNDS (fun x => Home.update (Home.setFund x))), (Home.update (Home.setFund v)).
    split; [destruct t, l; pick_control|]. split; [|reflexivity].
    exact (fires_select _ (fun x => Home.update (Home.setFund x)) v Hv).
  - exists (OnInput (fun x => Home.update (Home.setInitial (to_number x)))),
      (Home.update (Home.setInitial (to_number text))).
    split; [destruct t, l; pick_control|]. split; [|reflexivity].
    exact (fires_input (fun x => Home.update (Home.setInitial (to_number x))) text).
  - exists (OnInput (fun x => Home.update (Home.setMonthly (to_number x)))),
      (Home.update (Home.setMonthly (to_number text))).
    split; [destruct t, l; pick_control|]. split; [|reflexivity].
    exact (fires_input (fun x => Home.update (Home.setMonthly (to_number x))) text).
  - exists (OnSlide 1 30 1 (fun x => Home.update (Home.setYears x))),
      (Home.update (Home.setYears v)).
    split; [destruct t, l; pick_control|]. split; [|reflexivity].
    exact (fires_slide _ _ _ (fun x => Home.update (Home.setYears x)) v Hv).
  - exists (OnSlide 0 0.05 0.001
              (fun x => Home.update (Home.setFee (numeral_value (toFixed x 3))))),
      (Home.update (Home.setFee (numeral_value (toFixed v 3)))).
    split; [destruct t, l; pick_control|]. split; [|reflexivity].
    exact (fires_slide _ _ _
             (fun x => Home.update (Home.setFee (numeral_value (toFixed x 3)))) v Hv).
  - cbn in Ht. subst t.
    exists (OnSlide 1000 10000 500 (fun x => Home.update (Home.setNPaths x))),
      (Home.update (Home.setNPaths v)).
    split; [destruct l; pick_control|]. split; [|reflexivity].
    exact (fires_slide _ _ _ (fun x => Home.update (Home.setNPaths x)) v Hv).
  - exists (OnClick (Home.handleSimulationTypeChange type)),
      (Home.handleSimulationTypeChange type).
    split; [destruct t, l, type; pick_control|]. split; [constructor | reflexivity].
  - cbn in Hl. subst l.
    eexists (OnClick (runSimulation _)), _.
    split; [destruct t; pick_control|]. split; [constructor | reflexivity].
Qed.

(** X1. The events of the page are exactly the eight effects: whenever the
    page renders, what a user event on one of its controls can do to the
    state is one of choosing a listed fund, typing either amount, moving
    the years, fee or (in Monte Carlo mode only) path-count slider,
    pressing a mode button, or (unless loading) running the simulation;
    and each of these can be done. *)
Theorem events_of_the_page
        (s : Home.State) (tree : node Home.handler)
        (out : Home.State * list Home.Pending) :
  render s = Ok tree ->
  (effect s out
   <-> exists c h, In c (controls tree) /\ fires c h /\ h s = out).
Proof.
  intros R. rewrite (page_controls _ _ _ _ _ R). split.
  - apply effect_has_event.
  - intros (c & h & Hin & Hf & <-). exact (event_has_effect s c h Hin Hf).
Qed.

(** ** What a turn of the event loop does *)

(** A turn is an effect of the current state, or the settling of a
    request in flight. *)
Lemma step_cases (a : Home.App) (calls : list FetchCall) (a' : Home.App) :
  step a calls a' ->
  (exists out, effect (Home.home a) out
               /\ calls = map Home.call (snd out)
               /\ a' = {| Home.home := fst out;
                          Home.pending := Home.pending a ++ snd out |})
  \/ (exists before p after outcome,
         Home.pending a = before ++ p :: after
         /\ calls = []
         /\ a' = {| Home.home := Home.resume p outcome (Home.home a);
                    Home.pending := before ++ after |}).
Proof.
  intros [a0 tree c h s' ps R Hin Hf E | a0 before p after outcome E].
  - left. exists (h (Home.home a0)).
    rewrite (page_controls _ _ _ _ _ R) in Hin.
    split; [exact (event_has_effect _ c h Hin Hf)|]. rewrite E. split; reflexivity.
  - right. exists before, p, after, outcome. repeat split. exact E.
Qed.

(** The requests in flight are suspended runs of [runSimulation], and
    there is one exactly while [loading] is set. *)
Lemma in_flight (a : Home.App) (sent : list FetchCall) :
  reach a sent ->
  (forall p, In p (Home.pending a) ->
     exists r, In p (snd (runSimulation r r)))
  /\ List.length (Home.pending a)
     = (if Home.loading (Home.home a) then 1 else 0)%nat.
Proof.
  induction 1 as [| a sent calls a' _ (P & L) S].
  - split; [intros p [] | reflexivity].
  - destruct (step_cases _ _ _ S)
      as [(out & E & -> & ->) | (before & p & after & outcome & Ep & -> & ->)].
    + cbn [Home.home Home.pending].
      destruct E as [v Hv | text | text | v Hv | v Hv | v Ht Hv | type | Hl];
        cbn [fst snd]; rewrite ?app_nil_r.
      1-7: split; [exact P | exact L].
      rewrite Hl in L. apply length_zero_iff_nil in L. rewrite L.
      split; [|reflexivity].
      intros p Hp. exists (Home.home a). exact Hp.
    + cbn [Home.home Home.pending].
      assert (In p (Home.pending a)) as Hp
          by (rewrite Ep; apply in_or_app; right; left; reflexivity).
      destruct (P p Hp) as (r & [<- | []]).
      rewrite Ep, length_app in L. cbn [List.length] in L.
      destruct (Home.loading (Home.home a)); [|lia].
      assert (before = [] /\ after = []) as [-> ->].
      { destruct before, after; cbn in L; try lia. split; reflexivity. }
      split; [intros q [] |].
      destruct outcome; reflexivity.
Qed.

(** A property of the state that the events and the two setters of
    [runSimulation]'s continuation keep holds in every state the page
    reaches. *)
Lemma reach_state_invariant (P : Home.State -> Prop) :
  P Home.initial_state ->
  (forall s out, P s -> effect s out -> P (fst out)) ->
  (forall s b, P s -> P (Home.setLoading b s)) ->
  (forall s d, P s -> P (Home.setResult d s)) ->
  forall a sent, reach a sent -> P (Home.home a).
Proof.
  intros P0 Pe Pl Pr a sent R.
  induction R as [| a sent calls a' R IH S]; [exact P0|].
  destruct (step_cases _ _ _ S)
    as [(out & E & -> & ->) | (before & p & after & outcome & Ep & -> & ->)].
  - exact (Pe _ _ IH E).
  - cbn [Home.home].
    assert (In p (Home.pending a)) as Hp
        by (rewrite Ep; apply in_or_app; right; left; reflexivity).
    destruct (proj1 (in_flight a sent R) p Hp) as (r & [<- | []]).
    destruct outcome; cbn; auto.
Qed.

(** X2. The Run button is disabled while [loading], so requests never
    overlap: in every state the page reaches there is exactly one request
    in flight while [loading] is set and none otherwise. *)
Theorem one_request_in_flight_while_loading
        (a : Home.App) (sent : list FetchCall) :
  reach a sent ->
  List.length (Home.pending a)
  = (if Home.loading (Home.home a) then 1 else 0)%nat.
Proof. intros R. exact (proj2 (in_flight a sent R)). Qed.

(** X3. A turn of the event loop sends at most one request, and only
    [runSimulation] sends: then the page was not loading, the request is
    the one of the current state, and the turn does nothing else than set
    [loading]. *)
Theorem only_run_sends_a_request
        (a : Home.App) (calls : list FetchCall) (a' : Home.App) :
  step a calls a' ->
  calls = []
  \/ (calls = [simulate_call (Home.home a)]
      /\ Home.loading (Home.home a) = false
      /\ Home.home a' = Home.setLoading true (Home.home a)).
Proof.
  intros S. destruct (step_cases _ _ _ S)
    as [(out & E & -> & ->) | (before & p & after & outcome & _ & -> & ->)].
  - destruct E; cbn; auto.
  - left. reflexivity.
Qed.

(** X4. [finally]: when the request in flight settles, it is the only one,
    [loading] is cleared whether it succeeded or failed, a failure leaves
    the stored result as it was and a success stores the answer; the
    simulation type and the inputs are not touched. *)
Theorem settling_clears_loading
        (a : Home.App) (sent : list FetchCall)
        (before : list Home.Pending) (p : Home.Pending)
        (after : list Home.Pending) (outcome : exc value) :
  reach a sent ->
  Home.pending a = before ++ p :: after ->
  let s := Home.home a in
  let s' := Home.resume p outcome s in
  before ++ after = []
  /\ Home.loading s = true
  /\ Home.loading s' = false
  /\ Home.result s' = match outcome with
                      | Ok data => data
                      | Throw _ => Home.result s
                      end
  /\ Home.simulationType s' = Home.simulationType s
  /\ (Home.fund s', Home.initial s', Home.monthly s', Home.years s',
      Home.fee s', Home.nPaths s')
     = (Home.fund s, Home.initial s, Home.monthly s, Home.years s,
        Home.fee s, Home.nPaths s).
Proof.
  intros R Ep s s'. subst s s'.
  destruct (in_flight a sent R) as (P & L).
  assert (In p (Home.pending a)) as Hp
      by (rewrite Ep; apply in_or_app; right; left; reflexivity).
  destruct (P p Hp) as (r & [<- | []]).
  rewrite Ep, length_app in L. cbn [List.length] in L.
  destruct (Home.loading (Home.home a)); [|lia].
  assert (before = [] /\ after = []) as [-> ->].
  { destruct before, after; cbn in L; try lia. split; reflexivity. }
  split; [reflexivity|]. split; [reflexivity|].
  destruct outcome; cbn; repeat split.
Qed.

(** X5. The page holds no result before it has sent a request: a stored
    result other than null means that at least one request was sent. *)
Theorem no_result_before_a_request
        (a : Home.App) (sent : list FetchCall) :
  reach a sent ->
  Home.result (Home.home a) <> VNull ->
  exists first rest, sent = first :: rest.
Proof.
  intros R N. destruct sent as [| first rest]; [|eauto].
  exfalso. apply N. clear N.
  enough (forall sent, reach a sent -> sent = [] ->
          Home.result (Home.home a) = VNull /\ Home.pending a = [])
    as K by exact (proj1 (K [] R eq_refl)).
  clear R. intros sent R.
  induction R as [| a sent calls a' R IH S]; [intros _; split; reflexivity|].
  intros E. apply app_eq_nil in E. destruct E as [Es Ec].
  destruct (IH Es) as (Hr & Hp).
  destruct (step_cases _ _ _ S)
    as [(out & E & -> & ->) | (before & p & after & outcome & Ep & _ & ->)].
  - cbn [Home.home Home.pending]. rewrite Hp.
    destruct E; cbn in Ec |- *; try discriminate; auto.
  - rewrite Hp in Ep. destruct before; discriminate.
Qed.

Lemma fee_rounding_thousandth (v : Q) :
  slider_emits 0 0.05 0.001 v ->
  exists k : Z, (0 <= k <= 50)%Z /\ numeral_value (toFixed v 3) = (k # 1000)%Q.
Proof.
  intros [[H0 H1] _]. exact (fee_rounding v H0 H1).
Qed.

(** X6. [+v.toFixed(3)]: in every state the page reaches the fee is a whole
    number of thousandths, between 0 and 50 of them. *)
Theorem fee_is_a_whole_number_of_thousandths
        (a : Home.App) (sent : list FetchCall) :
  reach a sent ->
  exists k : Z, (0 <= k <= 50)%Z /\ (Home.fee (Home.home a) == k # 1000)%Q.
Proof.
  apply (reach_state_invariant
           (fun s => exists k : Z, (0 <= k <= 50)%Z /\ (Home.fee s == k # 1000)%Q)).
  - exists 18%Z. split; [lia | reflexivity].
  - intros s out K E. destruct E; cbn; try exact K.
    match goal with
    | H : slider_emits _ _ _ ?v |- _ =>
        destruct (fee_rounding_thousandth v H) as (k & Hk & ->)
    end.
    exists k. split; [exact Hk | reflexivity].
  - intros s b K. exact K.
  - intros s d K. exact K.
Qed.

(** X7. The path-count slider is rendered in Monte Carlo mode only: no turn
    taken in deterministic mode changes the path count, so the count
    chosen earlier is still there after switching back. *)
Theorem path_count_kept_in_deterministic_mode
        (a : Home.App) (sent calls : list FetchCall) (a' : Home.App) :
  reach a sent ->
  step a calls a' ->
  Home.simulationType (Home.home a) = deterministic ->
  Home.nPaths (Home.home a') = Home.nPaths (Home.home a).
Proof.
  intros R S D. destruct (step_cases _ _ _ S)
    as [(out & E & -> & ->) | (before & p & after & outcome & Ep & -> & ->)].
  - destruct E; cbn; try reflexivity. congruence.
  - cbn [Home.home].
    assert (In p (Home.pending a)) as Hp
        by (rewrite Ep; apply in_or_app; right; left; reflexivity).
    destruct (proj1 (in_flight a sent R) p Hp) as (r & [<- | []]).
    destruct outcome; reflexivity.
Qed.

(** X17. The answer of the server is stored unchecked: when the request in
    flight is answered with a truthy JSON value whose [category] is an
    object (or an array holding one), the answer is stored and the render
    that follows throws React's invalid-child error. *)
Theorem response_with_object_category_crashes_render
        (a : Home.App) (sent : list FetchCall)
        (before : list Home.Pending) (p : Home.Pending)
        (after : list Home.Pending) (data category : value) :
  reach a sent ->
  Home.pending a = before ++ p :: after ->
  truthy data = true ->
  get data "category" = Ok category ->
  valid_child category = false ->
  Home.result (Home.resume p (Ok data) (Home.home a)) = data
  /\ render (Home.resume p (Ok data) (Home.home a)) = Throw ReactChildError.
Proof.
  intros R Ep T C V.
  assert (In p (Home.pending a)) as Hp
      by (rewrite Ep; apply in_or_app; right; left; reflexivity).
  destruct (proj1 (in_flight a sent R) p Hp) as (r & [<- | []]).
  split; [reflexivity|].
  unfold Home.render, SimulationResults. cbn [Home.resume Home.result Home.setLoading Home.setResult].
  rewrite T, C. cbn [negb bind]. unfold react_child. rewrite V. reflexivity.
Qed.

End Page.

(* ================================================================== *)
(** * Further properties of the result components                     *)
(* ================================================================== *)

Section Views.

Context {M : Type}.
Variables mad percent : NumberFormat.

Lemma truthy_not_nullish (v : value) : truthy v = true -> nullish v = false.
Proof. destruct v; cbn; congruence. Qed.

Lemma get_defined (v : value) (k : string) :
  nullish v = false -> exists x, get v k = Ok x.
Proof. destruct v; cbn; try discriminate; eauto. Qed.

Lemma read_member_defined (v : value) (outer inner : string) :
  nullish v = false -> exists x, read_member v outer inner = Ok x.
Proof.
  intros N. unfold read_member. destruct (get_defined v outer N) as (x & ->).
  cbn [bind]. apply get_opt_total.
Qed.

(** X9. A falsy result of any kind (null, undefined, 0, the empty string,
    false) counts as no result: the results card is the placeholder and
    the chart component returns null, in either mode, and neither reads a
    field. *)
Theorem falsy_result_renders_placeholder
        (result : value) (simulationType : SimulationType) :
  truthy result = false ->
  SimulationResults (M := M) result simulationType mad percent
  = Ok (Elem "Card"
          [ results_header simulationType;
            Elem "CardContent"
              [Elem "div"
                 [Text "Run a simulation to see projected outcomes."]] ])
  /\ ProjectionChart (M := M) result simulationType = Ok Null.
Proof.
  intros F. unfold SimulationResults, ProjectionChart. rewrite F. split; reflexivity.
Qed.

(** A falsy value is a primitive, so [x || 0] is convertible exactly
    when [x] is; and [toFixed] can be called on [x || 0] exactly when
    [x] is falsy or a number. *)
Lemma convertible_or_zero (x : value) : convertible (or x zero) = convertible x.
Proof.
  unfold or. destruct (truthy x) eqn:T; [reflexivity|].
  destruct x; try reflexivity; discriminate.
Qed.

Lemma figure_outcome (f : NumberFormat) (read : exc value) (x : value) :
  read = Ok x ->
  figure f read
  = if convertible x then Ok (format f (or x zero)) else Throw TypeError.
Proof.
  intros ->. unfold figure, call_format. cbn [bind].
  rewrite convertible_or_zero. reflexivity.
Qed.

Lemma toFixed_outcome (x : value) :
  if negb (truthy x) || is_number x
  then exists text, call_toFixed (or x zero) 2 = Ok text
  else call_toFixed (or x zero) 2 = Throw TypeError.
Proof.
  unfold or, zero. destruct (truthy x) eqn:T; cbn [negb orb].
  - destruct x; cbn [is_number call_toFixed]; eauto.
  - cbn [call_toFixed]. eauto.
Qed.

(** X10. When rendering a result fails.  For a truthy result the results
    card throws in exactly three cases: [category] is not a valid React
    child (React's error); or a figure handed to [format] cannot be
    converted to a primitive; or, in Monte Carlo mode, the Sharpe ratio
    is truthy and not a number, so that [toFixed] is not a function (a
    TypeError in both cases).  The figures are the four of the
    deterministic view, or the six of the Monte Carlo view. *)
Theorem results_throw_exactly_when
        (result : value) (simulationType : SimulationType) (category : value) :
  truthy result = true ->
  get result "category" = Ok category ->
  let figures :=
    match simulationType with
    | deterministic =>
        [ get result "assumed_annual_return"; get result "net_final_value";
          get result "net_profit_after_tax"; get result "tax_paid" ]
    | monte_carlo =>
        [ get result "assumed_annual_return"; get result "assumed_annual_vol";
          read_member result "percentiles" "p5";
          read_member result "percentiles" "p50";
          read_member result "percentiles" "p95"; get result "prob_loss" ]
    end in
  let figures_convert :=
    forall read x, In read figures -> read = Ok x -> convertible x = true in
  let sharpe_is_number :=
    simulationType = monte_carlo ->
    forall sharpe,
      read_member result "risk_metrics" "sharpe" = Ok sharpe ->
      truthy sharpe = false \/ is_number sharpe = true in
  match SimulationResults (M := M) result simulationType mad percent with
  | Ok _ => valid_child category = true /\ figures_convert /\ sharpe_is_number
  | Throw e =>
      (valid_child category = false /\ e = ReactChildError)
      \/ (valid_child category = true /\ e = TypeError
          /\ ~ (figures_convert /\ sharpe_is_number))
  end.
Proof.
  intros T C figures figures_convert sharpe_is_number.
  subst figures_convert sharpe_is_number figures.
  pose proof (truthy_not_nullish _ T) as N.
  unfold SimulationResults. rewrite T, C. cbn [negb bind]. unfold react_child.
  destruct (valid_child category) eqn:V; cbn [bind];
    [|left; split; reflexivity].
  assert (forall (reads : list (exc value)) (read : exc value) (x : value)
                 (P : Prop),
             read = Ok x -> convertible x = false -> In read reads ->
             ~ ((forall r y, In r reads -> r = Ok y -> convertible y = true)
                /\ P)) as Bad.
  { intros reads read x P E F I [K _]. rewrite (K read x I E) in F. discriminate. }
  destruct simulationType; cbn [SimulationType_eqb].
  - unfold DeterministicResults.
    destruct (get_defined result "assumed_annual_return" N) as (x1 & E1).
    destruct (get_defined result "net_final_value" N) as (x2 & E2).
    destruct (get_defined result "net_profit_after_tax" N) as (x3 & E3).
    destruct (get_defined result "tax_paid" N) as (x4 & E4).
    rewrite (figure_outcome percent _ _ E1), (figure_outcome mad _ _ E2),
      (figure_outcome mad _ _ E3), (figure_outcome mad _ _ E4).
    destruct (convertible x1) eqn:C1; cbn [bind];
      [|right; repeat split; eapply (Bad _ _ _ _ E1 C1); cbn; tauto].
    destruct (convertible x2) eqn:C2; cbn [bind];
      [|right; repeat split; eapply (Bad _ _ _ _ E2 C2); cbn; tauto].
    destruct (convertible x3) eqn:C3; cbn [bind];
      [|right; repeat split; eapply (Bad _ _ _ _ E3 C3); cbn; tauto].
    destruct (convertible x4) eqn:C4; cbn [bind];
      [|right; repeat split; eapply (Bad _ _ _ _ E4 C4); cbn; tauto].
    split; [reflexivity|]. split; [|discriminate].
    intros read x I E. cbn in I.
    repeat (destruct I as [<- | I]; [congruence|]). destruct I.
  - unfold MonteCarloResults.
    destruct (get_defined result "assumed_annual_return" N) as (x1 & E1).
    destruct (get_defined result "assumed_annual_vol" N) as (x2 & E2).
    destruct (read_member_defined result "percentiles" "p5" N) as (x3 & E3).
    destruct (read_member_defined result "percentiles" "p50" N) as (x4 & E4).
    destruct (read_member_defined result "percentiles" "p95" N) as (x5 & E5).
    destruct (get_defined result "prob_loss" N) as (x6 & E6).
    destruct (read_member_defined result "risk_metrics" "sharpe" N) as (s & Es).
    rewrite (figure_outcome percent _ _ E1), (figure_outcome percent _ _ E2),
      (figure_outcome mad _ _ E3), (figure_outcome mad _ _ E4),
      (figure_outcome mad _ _ E5), (figure_outcome percent _ _ E6), Es.
    destruct (convertible x1) eqn:C1; cbn [bind];
      [|right; repeat split; eapply (Bad _ _ _ _ E1 C1); cbn; tauto].
    destruct (convertible x2) eqn:C2; cbn [bind];
      [|right; repeat split; eapply (Bad _ _ _ _ E2 C2); cbn; tauto].
    destruct (convertible x3) eqn:C3; cbn [bind];
      [|right; repeat split; eapply (Bad _ _ _ _ E3 C3); cbn; tauto].
    destruct (convertible x4) eqn:C4; cbn [bind];
      [|right; repeat split; eapply (Bad _ _ _ _ E4 C4); cbn; tauto].
    destruct (convertible x5) eqn:C5; cbn [bind];
      [|right; repeat split; eapply (Bad _ _ _ _ E5 C5); cbn; tauto].
    destruct (convertible x6) eqn:C6; cbn [bind];
      [|right; repeat split; eapply (Bad _ _ _ _ E6 C6); cbn; tauto].
    pose proof (toFixed_outcome s) as O.
    destruct (negb (truthy s) || is_number s) eqn:S.
    + destruct O as (text & ->). cbn [bind].
      split; [reflexivity|]. split.
      * intros read x I E. cbn in I.
        repeat (destruct I as [<- | I]; [congruence|]). destruct I.
      * intros _ sharpe Hs. injection Hs as <-.
        apply orb_true_iff in S. destruct S as [S | S]; [left | right; exact S].
        destruct (truthy s); [discriminate | reflexivity].
    + rewrite O. cbn [bind]. right. repeat split.
      intros [_ K]. destruct (K eq_refl s eq_refl) as [F | F].
      * rewrite F in S. discriminate.
      * rewrite F, orb_true_r in S. discriminate.
Qed.

(** X12. What the deterministic view reads: two results of the same
    truthiness that agree on [category], the four displayed figures and
    [trajectory] render identically; no other field (gross final value,
    total contributed, years, fund name, the Monte Carlo fields) is ever
    displayed. *)
Theorem deterministic_view_reads_six_fields (result result' : value) :
  truthy result = truthy result' ->
  (forall k,
      In k [ "category"; "assumed_annual_return"; "net_final_value";
             "net_profit_after_tax"; "tax_paid"; "trajectory" ] ->
      get result k = get result' k) ->
  SimulationResults (M := M) result deterministic mad percent
  = SimulationResults result' deterministic mad percent
  /\ ProjectionChart (M := M) result deterministic
     = ProjectionChart result' deterministic.
Proof.
  intros T G.
  unfold SimulationResults, ProjectionChart, DeterministicResults, get_opt.
  rewrite <- T. destruct (truthy result) eqn:Tr; cbn [negb orb SimulationType_eqb].
  2: split; reflexivity.
  rewrite (truthy_not_nullish _ Tr).
  rewrite (truthy_not_nullish result') by congruence.
  rewrite !(G "category"), !(G "assumed_annual_return"), !(G "net_final_value"),
    !(G "net_profit_after_tax"), !(G "tax_paid"), !(G "trajectory")
    by (cbn; tauto).
  split; reflexivity.
Qed.

(** X13. What the Monte Carlo view reads: two results of the same truthiness
    that agree on [category], the assumed return and volatility, the
    probability of loss, the three percentiles and the Sharpe ratio render
    identically; the other risk metrics and every deterministic figure
    are never displayed. *)
Theorem monte_carlo_view_reads_eight_values (result result' : value) :
  truthy result = truthy result' ->
  (forall k,
      In k [ "category"; "assumed_annual_return"; "assumed_annual_vol";
             "prob_loss" ] ->
      get result k = get result' k) ->
  (forall k,
      In k ["p5"; "p50"; "p95"] ->
      read_member result "percentiles" k = read_member result' "percentiles" k) ->
  read_member result "risk_metrics" "sharpe"
  = read_member result' "risk_metrics" "sharpe" ->
  SimulationResults (M := M) result monte_carlo mad percent
  = SimulationResults result' monte_carlo mad percent.
Proof.
  intros T G P S.
  unfold SimulationResults, MonteCarloResults.
  rewrite <- T. destruct (truthy result) eqn:Tr; cbn [negb SimulationType_eqb].
  2: reflexivity.
  rewrite !(G "category"), !(G "assumed_annual_return"),
    !(G "assumed_annual_vol"), !(G "prob_loss") by (cbn; tauto).
  rewrite !(P "p5"), !(P "p50"), !(P "p95"), S by (cbn; tauto).
  reflexivity.
Qed.

End Views.

(* ================================================================== *)
(** * Further properties of the proxy route                           *)
(* ================================================================== *)

Section ProxyFailures.

Variable JSON_parse : string -> option value.
Variable JSON_stringify : value -> string.

Local Abbreviation POST := (Route.POST JSON_parse JSON_stringify).
Local Abbreviation forwarded := (Route.forwarded JSON_stringify).

(** X14. How the route fails: a request body that is not JSON throws a
    syntax error whatever the network would do (the back end is not
    contacted); a failure of the forwarding [fetch] is thrown on
    unchanged; a back-end answer that is not JSON throws a syntax
    error. *)
Theorem route_failures
        (fetch : string -> RequestInit -> exc Route.Response)
        (req : Route.Request) :
  (JSON_parse (Route.request_body req) = None ->
   forall network, POST network req = Throw SyntaxError)
  /\ (forall received e,
         JSON_parse (Route.request_body req) = Some received ->
         fetch Route.backend (forwarded received) = Throw e ->
         POST fetch req = Throw e)
  /\ (forall received res,
         JSON_parse (Route.request_body req) = Some received ->
         fetch Route.backend (forwarded received) = Ok res ->
         JSON_parse (Route.response_body res) = None ->
         POST fetch req = Throw SyntaxError).
Proof.
  unfold Route.POST, Route.json. repeat split.
  - intros E network. rewrite E. reflexivity.
  - intros received e E F. rewrite E. cbn [bind]. rewrite F. reflexivity.
  - intros received res E F D. rewrite E. cbn [bind]. rewrite F. cbn [bind].
    rewrite D. reflexivity.
Qed.

(** X15. Whenever the route answers, it answers 200 with a JSON body, which
    is the serialization of the decoded back-end body: the status the
    back end answered with is not passed on. *)
Theorem route_answers_200
        (fetch : string -> RequestInit -> exc Route.Response)
        (req : Route.Request) (answer : Route.Response) :
  POST fetch req = Ok answer ->
  Route.status answer = 200%Z
  /\ Route.content_type answer = "application/json"
  /\ exists received res data,
       JSON_parse (Route.request_body req) = Some received
       /\ fetch Route.backend (forwarded received) = Ok res
       /\ JSON_parse (Route.response_body res) = Some data
       /\ Route.response_body answer = JSON_stringify data.
Proof.
  unfold Route.POST, Route.json. intros H.
  destruct (JSON_parse (Route.request_body req)) as [received|] eqn:E;
    [|discriminate].
  cbn [bind] in H.
  destruct (fetch Route.backend (forwarded received)) as [res|] eqn:F;
    [|discriminate].
  cbn [bind] in H.
  destruct (JSON_parse (Route.response_body res)) as [data|] eqn:D;
    [|discriminate].
  cbn [bind] in H. injection H as <-.
  split; [reflexivity|]. split; [reflexivity|].
  exists received, res, data. repeat split; assumption.
Qed.

End ProxyFailures.

Section EndToEnd.

Variable JSON_parse : string -> option value.
Variable JSON_stringify : value -> string.
Variable fetch : string -> RequestInit -> exc Route.Response.

Local Abbreviation serve := (Route.serve JSON_parse JSON_stringify fetch).
Local Abbreviation simulate_call := (Home.simulate_call JSON_stringify).

(** X16. The page and the route together, in Monte Carlo mode: the request
    of [runSimulation] goes to /api/mc-simulate; the route decodes its
    body to [received] and forwards that; when the back end answers a
    body that decodes to [data], the route answers [data] serialized
    anew, and what the page's continuation stores, clearing [loading], is
    the value [stored] this answer decodes to ([data] itself whenever
    [data] survives being serialized and decoded). *)
Theorem monte_carlo_round_trip
        (s : Home.State) (received : value) (res : Route.Response)
        (data stored : value) :
  Home.simulationType s = monte_carlo ->
  JSON_parse (JSON_stringify (Home.requestBody s)) = Some received ->
  fetch Route.backend (Route.forwarded JSON_stringify received) = Ok res ->
  JSON_parse (Route.response_body res) = Some data ->
  JSON_parse (JSON_stringify data) = Some stored ->
  url (simulate_call s) = "/api/mc-simulate"
  /\ serve (simulate_call s) = Ok stored
  /\ forall p x,
       In p (snd (Home.runSimulation JSON_stringify s s)) ->
       Home.resume p (serve (Home.call p)) x
       = Home.setLoading false (Home.setResult stored x).
Proof.
  intros T B F D R.
  assert (serve (simulate_call s) = Ok stored) as S.
  { unfold Route.serve, Route.POST, Route.json, Home.simulate_call.
    cbn [init body Route.request_body].
    rewrite B. cbn [bind]. rewrite F. cbn [bind]. rewrite D. cbn [bind].
    cbn [Route.NextResponse_json Route.response_body].
    rewrite R. reflexivity. }
  split; [|split; [exact S|]].
  - unfold Home.simulate_call, Home.endpoint. rewrite T. reflexivity.
  - intros p x [<- | []]. cbn [Home.call Home.resume]. rewrite S. reflexivity.
Qed.

End EndToEnd.

(* ================================================================== *)
(** * The further properties on concrete inputs                       *)
(* ================================================================== *)

Section MoreExamples.

Local Abbreviation render :=
  (Home.render Sample.JSON_stringify Sample.toLocaleString Sample.Intl_NumberFormat).
Local Abbreviation reach :=
  (Home.reach Sample.JSON_stringify Sample.toLocaleString Sample.Intl_NumberFormat).
Local Abbreviation step :=
  (Home.step Sample.JSON_stringify Sample.toLocaleString Sample.Intl_NumberFormat).
Local Abbreviation simulate_call := (Home.simulate_call Sample.JSON_stringify).
Local Abbreviation runSimulation := (Home.runSimulation Sample.JSON_stringify).
Local Abbreviation effect := (Home.effect Sample.JSON_stringify).
Local Abbreviation first_request :=
  {| Home.home := Home.setLoading true Home.initial_state;
     Home.pending := snd (runSimulation Home.initial_state Home.initial_state) |}.
Local Abbreviation the_pending :=
  {| Home.call := simulate_call Home.initial_state;
     Home.resume := fun outcome s' =>
       match outcome with
       | Ok data => Home.setLoading false (Home.setResult data s')
       | Throw _ => Home.setLoading false s'
       end |}.
Local Abbreviation sample_mad := (Sample.Intl_NumberFormat "en-MA" []).
Local Abbreviation sample_percent := (Sample.Intl_NumberFormat "en-US" []).

(** The Run button of a fresh page. *)
Lemma first_request_step :
  step Home.start [simulate_call Home.initial_state] first_request.
Proof.
  refine (step_of_event _ _ _ Home.start
            (OnClick (runSimulation Home.initial_state)) _ _ eq_refl _
            (fires_click _)).
  do 7 right; left; reflexivity.
Qed.

(** The fresh page after its first request was answered. *)
Lemma first_answer_reached :
  reach {| Home.home := Home.resume the_pending (Ok Sample.mc_result)
                          (Home.setLoading true Home.initial_state);
           Home.pending := [] |}
        [simulate_call Home.initial_state].
Proof.
  exact (reach_settle _ _ _ first_request _ the_pending [] (Ok Sample.mc_result)
           first_request_reached eq_refl).
Qed.

(** X1 on the fresh page: typing 7 into the initial amount. *)
Lemma events_of_the_page_witness :
  exists tree,
    render Home.initial_state = Ok tree
    /\ (effect Home.initial_state
          (Home.setInitial (to_number (Numeric 7)) Home.initial_state, [])
        <-> exists c h,
              In c (controls tree) /\ fires c h
              /\ h Home.initial_state
                 = (Home.setInitial (to_number (Numeric 7)) Home.initial_state, [])).
Proof.
  eexists. split; [reflexivity|].
  apply (events_of_the_page
           Sample.JSON_stringify Sample.toLocaleString Sample.Intl_NumberFormat).
  reflexivity.
Defined.

(** X2 while the first request is in flight. *)
Lemma one_request_in_flight_witness :
  List.length (Home.pending first_request)
  = (if Home.loading (Home.home first_request) then 1 else 0)%nat.
Proof.
  exact (one_request_in_flight_while_loading _ _ _ _ _ first_request_reached).
Defined.

(** X3 at the Run button of a fresh page. *)
Lemma only_run_sends_witness :
  [simulate_call Home.initial_state] = []
  \/ ([simulate_call Home.initial_state] = [simulate_call (Home.home Home.start)]
      /\ Home.loading (Home.home Home.start) = false
      /\ Home.home first_request = Home.setLoading true (Home.home Home.start)).
Proof.
  exact (only_run_sends_a_request _ _ _ _ _ _ first_request_step).
Defined.

(** X4 when the first request fails. *)
Lemma settling_clears_loading_witness :
  let s := Home.home first_request in
  let s' := Home.resume the_pending (Throw NetworkError) s in
  [] ++ [] = ([] : list Home.Pending)
  /\ Home.loading s = true
  /\ Home.loading s' = false
  /\ Home.result s' = Home.result s
  /\ Home.simulationType s' = Home.simulationType s
  /\ (Home.fund s', Home.initial s', Home.monthly s', Home.years s',
      Home.fee s', Home.nPaths s')
     = (Home.fund s, Home.initial s, Home.monthly s, Home.years s,
        Home.fee s, Home.nPaths s).
Proof.
  exact (settling_clears_loading _ _ _ first_request _ [] the_pending []
           (Throw NetworkError) first_request_reached eq_refl).
Defined.

(** X5 once the first answer is stored. *)
Lemma no_result_before_a_request_witness :
  exists first rest, [simulate_call Home.initial_state] = first :: rest.
Proof.
  refine (no_result_before_a_request _ _ _ _ _ first_answer_reached _).
  discriminate.
Defined.

(** X6 while the first request is in flight. *)
Lemma fee_thousandths_witness :
  exists k : Z,
    (0 <= k <= 50)%Z /\ (Home.fee (Home.home first_request) == k # 1000)%Q.
Proof.
  exact (fee_is_a_whole_number_of_thousandths _ _ _ _ _ first_request_reached).
Defined.

(** X7 at the Run button of a fresh page. *)
Lemma path_count_kept_witness :
  Home.nPaths (Home.home first_request) = Home.nPaths (Home.home Home.start).
Proof.
  exact (path_count_kept_in_deterministic_mode _ _ _ _ _ _ _
           (Home.reach_start _ _ _) first_request_step eq_refl).
Defined.

(** X17: an answer whose category is an object. *)
Lemma object_category_witness :
  let data := VObject [("category", VObject [])] in
  Home.result (Home.resume the_pending (Ok data) (Home.home first_request)) = data
  /\ render (Home.resume the_pending (Ok data) (Home.home first_request))
     = Throw ReactChildError.
Proof.
  exact (response_with_object_category_crashes_render _ _ _ first_request _
           [] the_pending [] (VObject [("category", VObject [])]) (VObject [])
           first_request_reached eq_refl eq_refl eq_refl eq_refl).
Defined.

(** X9 at the null result. *)
Lemma falsy_result_witness :
  SimulationResults (M := Home.handler) VNull monte_carlo sample_mad sample_percent
  = Ok (Elem "Card"
          [ results_header monte_carlo;
            Elem "CardContent"
              [Elem "div"
                 [Text "Run a simulation to see projected outcomes."]] ])
  /\ ProjectionChart (M := Home.handler) VNull monte_carlo = Ok Null.
Proof.
  exact (falsy_result_renders_placeholder sample_mad sample_percent
           VNull monte_carlo eq_refl).
Defined.

(** X10 at the sample Monte Carlo result, which renders, and at an answer
    whose Sharpe ratio is a string, which throws. *)
Lemma results_throw_witness :
  (exists cards : node Home.handler,
      SimulationResults Sample.mc_result monte_carlo sample_mad sample_percent
      = Ok cards)
  /\ SimulationResults (M := Home.handler) Sample.text_sharpe monte_carlo
       sample_mad sample_percent
     = Throw TypeError
  /\ ~ (forall sharpe,
          read_member Sample.text_sharpe "risk_metrics" "sharpe" = Ok sharpe ->
          truthy sharpe = false \/ is_number sharpe = true).
Proof.
  pose proof (results_throw_exactly_when (M := Home.handler)
                sample_mad sample_percent
                Sample.mc_result monte_carlo (VString "Actions")
                eq_refl eq_refl) as Renders.
  pose proof (results_throw_exactly_when (M := Home.handler)
                sample_mad sample_percent
                Sample.text_sharpe monte_carlo (VString "Actions")
                eq_refl eq_refl) as Throws.
  cbv zeta in Renders, Throws.
  destruct (SimulationResults Sample.mc_result monte_carlo _ _) as [cards|e] eqn:R;
    [|discriminate R].
  destruct (SimulationResults Sample.text_sharpe monte_carlo _ _) as [cards'|e] eqn:T;
    [discriminate T|].
  split; [exists cards; reflexivity|].
  destruct Throws as [(V & _) | (_ & -> & K)]; [discriminate V|].
  split; [reflexivity|].
  intros S. apply K. split.
  - intros read x I E. cbn in I.
    repeat (destruct I as [<- | I]; [injection E as <-; reflexivity|]).
    destruct I.
  - intros _. exact S.
Defined.

(** X12: two results that differ in a figure the deterministic view does
    not read. *)
Lemma deterministic_view_witness :
  let result := VObject [("category", VString "Actions");
                         ("gross_final_value", VNumber 1)] in
  let result' := VObject [("category", VString "Actions");
                          ("gross_final_value", VNumber 2)] in
  SimulationResults (M := Home.handler) result deterministic sample_mad sample_percent
  = SimulationResults result' deterministic sample_mad sample_percent
  /\ ProjectionChart (M := Home.handler) result deterministic
     = ProjectionChart result' deterministic.
Proof.
  refine (deterministic_view_reads_six_fields (M := Home.handler)
            sample_mad sample_percent
            (VObject [("category", VString "Actions");
                      ("gross_final_value", VNumber 1)])
            (VObject [("category", VString "Actions");
                      ("gross_final_value", VNumber 2)])
            eq_refl _).
  intros k H. cbn in H.
  repeat (destruct H as [<- | H]; [reflexivity|]). destruct H.
Defined.

(** X13: two results that differ in the Sortino ratio. *)
Lemma monte_carlo_view_witness :
  let result := VObject [("risk_metrics",
                          VObject [("sharpe", VNumber 1); ("sortino", VNumber 2)])] in
  let result' := VObject [("risk_metrics",
                           VObject [("sharpe", VNumber 1); ("sortino", VNumber 3)])] in
  SimulationResults (M := Home.handler) result monte_carlo sample_mad sample_percent
  = SimulationResults result' monte_carlo sample_mad sample_percent.
Proof.
  refine (monte_carlo_view_reads_eight_values (M := Home.handler)
            sample_mad sample_percent
            (VObject [("risk_metrics",
                       VObject [("sharpe", VNumber 1); ("sortino", VNumber 2)])])
            (VObject [("risk_metrics",
                       VObject [("sharpe", VNumber 1); ("sortino", VNumber 3)])])
            eq_refl _ _ eq_refl).
  - intros k H. cbn in H.
    repeat (destruct H as [<- | H]; [reflexivity|]). destruct H.
  - intros k H. cbn in H.
    repeat (destruct H as [<- | H]; [reflexivity|]). destruct H.
Defined.

(** X15 behind a back end that answers 422. *)
Lemma route_answers_200_witness :
  Route.status (Route.NextResponse_json Sample.JSON_stringify VNull) = 200%Z
  /\ Route.content_type (Route.NextResponse_json Sample.JSON_stringify VNull)
     = "application/json"
  /\ exists received res data,
       Sample.JSON_parse "{}" = Some received
       /\ Sample.refusing_backend Route.backend
            (Route.forwarded Sample.JSON_stringify received) = Ok res
       /\ Sample.JSON_parse (Route.response_body res) = Some data
       /\ Route.response_body (Route.NextResponse_json Sample.JSON_stringify VNull)
          = Sample.JSON_stringify data.
Proof.
  exact (route_answers_200 Sample.JSON_parse Sample.JSON_stringify
           Sample.refusing_backend {| Route.request_body := "{}" |}
           (Route.NextResponse_json Sample.JSON_stringify VNull) eq_refl).
Defined.

(** X16 for the page with MC Simulation selected, behind a back end that
    answers the sample result: the page stores the result as decoded. *)
Lemma monte_carlo_round_trip_witness :
  url (simulate_call Sample.monte_carlo_page) = "/api/mc-simulate"
  /\ Route.serve JSON.parse JSON.stringify Sample.mc_backend
       (simulate_call Sample.monte_carlo_page)
     = Ok (Sample.decoded Sample.mc_text)
  /\ get (Sample.decoded Sample.mc_text) "fund_name"
     = Ok (VString "ATTIJARI ACTIONS")
  /\ forall p x,
       In p (snd (runSimulation Sample.monte_carlo_page Sample.monte_carlo_page)) ->
       Home.resume p
         (Route.serve JSON.parse JSON.stringify Sample.mc_backend (Home.call p)) x
       = Home.setLoading false (Home.setResult (Sample.decoded Sample.mc_text) x).
Proof.
  assert (JSON.parse (JSON.stringify (Home.requestBody Sample.monte_carlo_page))
          = Some (Sample.decoded
                    (JSON.stringify (Home.requestBody Sample.monte_carlo_page))))
    as B by (vm_compute; reflexivity).
  assert (JSON.parse Sample.mc_text = Some (Sample.decoded Sample.mc_text))
    as D by (vm_compute; reflexivity).
  assert (JSON.parse (JSON.stringify (Sample.decoded Sample.mc_text))
          = Some (Sample.decoded Sample.mc_text))
    as R by (vm_compute; reflexivity).
  destruct (monte_carlo_round_trip
              JSON.parse JSON.stringify Sample.mc_backend
              Sample.monte_carlo_page
              (Sample.decoded
                 (JSON.stringify (Home.requestBody Sample.monte_carlo_page)))
              {| Route.status := 200;
                 Route.content_type := "application/json";
                 Route.response_body := Sample.mc_text |}
              (Sample.decoded Sample.mc_text) (Sample.decoded Sample.mc_text)
              eq_refl B eq_refl D R)
    as (U & S & K).
  split; [exact U|]. split; [exact S|].
  split; [vm_compute; reflexivity | exact K].
Defined.

End MoreExamples.
